(** * Delfos MCP server: the tool handlers of [delfos_mcp.py]

    A shallow embedding of the ten tool handlers and of the way they talk to
    the database driver, followed by the properties of the handlers.

    The handlers are Python coroutines without an [await] inside: each runs
    from its first statement to its [return] (or to the statement that
    raises) without interleaving, so a handler is modelled as a function
    from the history of the process to an outcome and the extended history.

    Everything outside the module (the pyodbc driver and the database behind
    it, [uuid.uuid4], [datetime.now], [os.getenv], [repr] of a string) is an
    oracle of the record [Env]; the driver's answers are functions of the
    history, so a driver may accept a statement once and refuse it later. *)

From Stdlib Require Import ZArith Ascii DecimalString.
From stdpp Require Import base strings list gmap.

Local Open Scope string_scope.
Local Open Scope list_scope.

(** ** Python values, rows, exceptions *)

(** A value as the driver hands it over or takes it as a parameter.  [VObj]
    stands for an object of any other class (float, Decimal, datetime),
    known by the texts that [str] and [repr] give for it. *)
Inductive value : Type :=
| VNone
| VInt (n : Z)
| VStr (s : string)
| VObj (str_text repr_text : string).

(** A [pyodbc.Row]: the column values in the order of the select list. *)
Definition row : Type := list value.

(** An exception raised inside a call to the driver ([pyodbc.Error], one
    of its subclasses, or what the binding raises for a bad argument), with
    the name of its class. *)
Record db_error : Type := PyodbcError {
  err_class : string;
  err_msg : string
}.

(** The exceptions a handler can end with.  [DbError] wraps what the driver
    raised; the other three are raised by the interpreter while a handler
    formats what it fetched. *)
Inductive exn : Type :=
| DbError (e : db_error)
| AttributeError (msg : string)
| TypeError (msg : string)
| IndexError (msg : string).

Inductive result (A : Type) : Type :=
| Return (a : A)
| Raise (e : exn).
Arguments Return {A} a.
Arguments Raise {A} e.

(** ** The history of driver calls *)

(** One entry per call that reaches the driver or a source of fresh data.
    [EConnect] is logged when a connection has been opened; [EExecute],
    [EFetchAll], [EFetchOne] and [ECommit] when the call is issued, whether
    or not the driver then raises. *)
Inductive event : Type :=
| EConnect (conn : nat)
| ECursor (conn : nat)
| EExecute (conn : nat) (stmt : string) (params : list value)
| EFetchAll (conn : nat)
| EFetchOne (conn : nat)
| ECommit (conn : nat)
| ECursorClose (conn : nat)
| EClose (conn : nat)
| EUuid4 (s : string)
| ENow (t : value).

Definition history : Type := list event.

(** What the module imports.  Every answer of the driver is a function of
    the history before the call; [None] and [inr] are the answers of a call
    that does not raise. *)
Record Env : Type := {
  getenv : string -> option string;
  repr_str : string -> string;
  uuid4 : history -> string;
  now : history -> value;
  connect : history -> option db_error;
  execute : history -> string -> list value -> option db_error;
  fetchall : history -> db_error + list row;
  fetchone : history -> db_error + option row;
  commit : history -> option db_error
}.

(** ** Text conversions of the interpreter *)

Definition nl : string := String (Ascii.ascii_of_nat 10) "".

Definition str_int (n : Z) : string := NilZero.string_of_int (Z.to_int n).

(** [str(v)], which is also what an f-string field [{v}] produces. *)
Definition py_str (v : value) : string :=
  match v with
  | VNone => "None"
  | VInt n => str_int n
  | VStr s => s
  | VObj s _ => s
  end.

(** [str(o)] for the result of [os.getenv]. *)
Definition str_opt (o : option string) : string :=
  match o with
  | Some s => s
  | None => "None"
  end.

(** [sep.join(items)] on a list of [str]. *)
Definition join (sep : string) (items : list string) : string :=
  String.concat sep items.

(** [sep.join(items)] on values taken out of rows: an item that is not a
    [str] raises [TypeError].  The message is kept up to the point where
    the interpreter names the class of the item ([, NoneType found]). *)
Fixpoint expect_strs (i : nat) (items : list value) : result (list string) :=
  match items with
  | [] => Return []
  | VStr s :: rest =>
      match expect_strs (S i) rest with
      | Return l => Return (s :: l)
      | Raise e => Raise e
      end
  | _ :: _ =>
      Raise (TypeError ("sequence item " +:+ str_int (Z.of_nat i) +:+
                        ": expected str instance"))
  end.

Definition join_values (sep : string) (items : list value) : result string :=
  match expect_strs 0 items with
  | Return l => Return (join sep l)
  | Raise e => Raise e
  end.

(** [row.NAME], the column at position [i] of the select list. *)
Definition row_attr (r : row) (i : nat) (name : string) : result value :=
  match r !! i with
  | Some v => Return v
  | None => Raise (AttributeError ("'pyodbc.Row' object has no attribute '" +:+ name +:+ "'"))
  end.

(** [row[i]]. *)
Definition row_index (r : row) (i : nat) : result value :=
  match r !! i with
  | Some v => Return v
  | None => Raise (IndexError "tuple index out of range")
  end.

(** The attribute [name] of the result of [fetchone()], which is [None]
    when the result set is empty. *)
Definition fetched_attr (o : option row) (i : nat) (name : string) : result value :=
  match o with
  | Some r => row_attr r i name
  | None => Raise (AttributeError ("'NoneType' object has no attribute '" +:+ name +:+ "'"))
  end.

(** A list comprehension whose body can raise. *)
Fixpoint comprehension {A B : Type} (f : A -> result B) (l : list A) : result (list B) :=
  match l with
  | [] => Return []
  | a :: rest =>
      match f a with
      | Raise e => Raise e
      | Return b =>
          match comprehension f rest with
          | Raise e => Raise e
          | Return bs => Return (b :: bs)
          end
      end
  end.

(** ** The handler monad: exceptions over the history *)

Definition M (A : Type) : Type := history -> result A * history.

Definition ret {A : Type} (a : A) : M A := fun h => (Return a, h).

Definition bind {A B : Type} (m : M A) (k : A -> M B) : M B :=
  fun h =>
    match m h with
    | (Return a, h') => k a h'
    | (Raise e, h') => (Raise e, h')
    end.

Definition lift {A : Type} (r : result A) : M A := fun h => (r, h).

Notation "x <~ m ;; k" := (bind m (fun x => k))
  (at level 100, m at next level, right associativity).
Notation "m ;; k" := (bind m (fun _ => k))
  (at level 100, right associativity).

(** ** The handlers *)

Section Handlers.

Variable E : Env.

(** [repr(v)]. *)
Definition py_repr (v : value) : string :=
  match v with
  | VNone => "None"
  | VInt n => str_int n
  | VStr s => repr_str E s
  | VObj _ r => r
  end.

(** [str(row)] for a [pyodbc.Row]: the text of the tuple of its values. *)
Definition str_row (r : row) : string :=
  match r with
  | [v] => "(" +:+ py_repr v +:+ ",)"
  | _ => "(" +:+ join ", " (map py_repr r) +:+ ")"
  end.

(** [row.get(key)] on a result row of the caller. *)
Definition dict_get (d : gmap string value) (key : string) : value :=
  default VNone (d !! key).

(** *** Calls into the driver and the standard library *)

(** [pyodbc.connect(CONNECTION_STRING)]; the handle of the new connection
    is its position in the history. *)
Definition get_db_connection : M nat :=
  fun h =>
    match connect E h with
    | Some e => (Raise (DbError e), h)
    | None => (Return (length h), h ++ [EConnect (length h)])
    end.

(** [conn.cursor()]; the cursor is named after its connection.  Opening a
    cursor and the two [close()] calls are taken not to raise on a
    connection that is open. *)
Definition conn_cursor (conn : nat) : M nat :=
  fun h => (Return conn, h ++ [ECursor conn]).

Definition cursor_execute (cursor : nat) (stmt : string) (params : list value) : M unit :=
  fun h =>
    match execute E h stmt params with
    | Some e => (Raise (DbError e), h ++ [EExecute cursor stmt params])
    | None => (Return tt, h ++ [EExecute cursor stmt params])
    end.

Definition cursor_fetchall (cursor : nat) : M (list row) :=
  fun h =>
    match fetchall E h with
    | inl e => (Raise (DbError e), h ++ [EFetchAll cursor])
    | inr rows => (Return rows, h ++ [EFetchAll cursor])
    end.

Definition cursor_fetchone (cursor : nat) : M (option row) :=
  fun h =>
    match fetchone E h with
    | inl e => (Raise (DbError e), h ++ [EFetchOne cursor])
    | inr r => (Return r, h ++ [EFetchOne cursor])
    end.

Definition conn_commit (conn : nat) : M unit :=
  fun h =>
    match commit E h with
    | Some e => (Raise (DbError e), h ++ [ECommit conn])
    | None => (Return tt, h ++ [ECommit conn])
    end.

Definition cursor_close (cursor : nat) : M unit :=
  fun h => (Return tt, h ++ [ECursorClose cursor]).

Definition conn_close (conn : nat) : M unit :=
  fun h => (Return tt, h ++ [EClose conn]).

(** [str(uuid.uuid4())]. *)
Definition uuid_uuid4 : M string :=
  fun h => (Return (uuid4 E h), h ++ [EUuid4 (uuid4 E h)]).

Definition datetime_now : M value :=
  fun h => (Return (now E h), h ++ [ENow (now E h)]).

Definition os_getenv (name : string) : M (option string) :=
  fun h => (Return (getenv E name), h).

(** *** Statement texts *)

Definition table_schema_sql (table_name : string) : string :=
  "SELECT COLUMN_NAME, DATA_TYPE FROM INFORMATION_SCHEMA.COLUMNS WHERE TABLE_NAME = '"
  +:+ table_name +:+ "'".

Definition list_tables_sql : string :=
  "SELECT TABLE_NAME FROM INFORMATION_SCHEMA.TABLES WHERE TABLE_TYPE = 'BASE TABLE'".

Definition database_info_sql : string :=
  "SELECT DB_NAME() AS DatabaseName, SERVERPROPERTY('ProductVersion') AS Version".

Definition row_count_sql (table_name : string) : string :=
  "SELECT COUNT(*) AS TotalRows FROM [SalesLT].[" +:+ table_name +:+ "]".

Definition primary_keys_sql (table_name : string) : string :=
  "
        SELECT COLUMN_NAME 
        FROM INFORMATION_SCHEMA.KEY_COLUMN_USAGE 
        WHERE OBJECTPROPERTY(OBJECT_ID(CONSTRAINT_SCHEMA + '.' + CONSTRAINT_NAME), 'IsPrimaryKey') = 1 
        AND TABLE_NAME = '" +:+ table_name +:+ "'
    ".

Definition distinct_values_sql (table_name column_name : string) : string :=
  "SELECT DISTINCT [" +:+ column_name +:+ "] FROM [SalesLT].[" +:+ table_name +:+ "]".

Definition relationships_sql : string :=
  "
        SELECT 
            fk.name AS ForeignKey,
            tp.name AS ParentTable,
            cp.name AS ParentColumn,
            tr.name AS ReferencedTable,
            cr.name AS ReferencedColumn
        FROM 
            sys.foreign_keys AS fk
        INNER JOIN 
            sys.foreign_key_columns AS fkc ON fk.object_id = fkc.constraint_object_id
        INNER JOIN 
            sys.tables AS tp ON fkc.parent_object_id = tp.object_id
        INNER JOIN 
            sys.columns AS cp ON fkc.parent_object_id = cp.object_id AND fkc.parent_column_id = cp.column_id
        INNER JOIN 
            sys.tables AS tr ON fkc.referenced_object_id = tr.object_id
        INNER JOIN 
            sys.columns AS cr ON fkc.referenced_object_id = cr.object_id AND fkc.referenced_column_id = cr.column_id
    ".

Definition insert_sql : string :=
  "
        INSERT INTO [dbo].[agent_output]
            ([run_id], [user_id], [question], [x_value], [y_value],
             [series], [category], [metric_name], [visual_hint], [created_at])
        VALUES (?, ?, ?, ?, ?, ?, ?, ?, ?, ?)
    ".

(** *** The tools *)

Definition execute_sql_query (query : string) : M string :=
  conn <~ get_db_connection ;;
  cursor <~ conn_cursor conn ;;
  cursor_execute cursor query [] ;;
  results <~ cursor_fetchall cursor ;;
  cursor_close cursor ;;
  conn_close conn ;;
  let result_str := join nl (map str_row results) in
  ret (match result_str with
       | "" => "No results found."
       | _ => result_str
       end).

(** The f-string [{col.COLUMN_NAME}: {col.DATA_TYPE}]. *)
Definition schema_line (col : row) : result string :=
  match row_attr col 0 "COLUMN_NAME" with
  | Raise e => Raise e
  | Return name =>
      match row_attr col 1 "DATA_TYPE" with
      | Raise e => Raise e
      | Return type => Return (py_str name +:+ ": " +:+ py_str type)
      end
  end.

Definition get_table_schema (table_name : string) : M string :=
  conn <~ get_db_connection ;;
  cursor <~ conn_cursor conn ;;
  cursor_execute cursor (table_schema_sql table_name) [] ;;
  columns <~ cursor_fetchall cursor ;;
  cursor_close cursor ;;
  conn_close conn ;;
  match columns with
  | [] => ret ("No schema found for table '" +:+ table_name +:+ "'.")
  | _ =>
      schema_lines <~ lift (comprehension schema_line columns) ;;
      ret (join nl schema_lines)
  end.

Definition list_tables : M string :=
  conn <~ get_db_connection ;;
  cursor <~ conn_cursor conn ;;
  cursor_execute cursor list_tables_sql [] ;;
  tables <~ cursor_fetchall cursor ;;
  cursor_close cursor ;;
  conn_close conn ;;
  table_list <~ lift (comprehension (fun table => row_attr table 0 "TABLE_NAME") tables) ;;
  match table_list with
  | [] => ret "No tables found in the database."
  | _ => lift (join_values nl table_list)
  end.

Definition get_database_info : M string :=
  conn <~ get_db_connection ;;
  cursor <~ conn_cursor conn ;;
  cursor_execute cursor database_info_sql [] ;;
  info <~ cursor_fetchone cursor ;;
  cursor_close cursor ;;
  conn_close conn ;;
  name <~ lift (fetched_attr info 0 "DatabaseName") ;;
  version <~ lift (fetched_attr info 1 "Version") ;;
  ret ("Database Name: " +:+ py_str name +:+ nl +:+ "Version: " +:+ py_str version).

Definition get_table_row_count (table_name : string) : M string :=
  conn <~ get_db_connection ;;
  cursor <~ conn_cursor conn ;;
  cursor_execute cursor (row_count_sql table_name) [] ;;
  row_count <~ cursor_fetchone cursor ;;
  cursor_close cursor ;;
  conn_close conn ;;
  total <~ lift (fetched_attr row_count 0 "TotalRows") ;;
  ret ("Table '" +:+ table_name +:+ "' has " +:+ py_str total +:+ " rows.").

Definition get_primary_keys (table_name : string) : M string :=
  conn <~ get_db_connection ;;
  cursor <~ conn_cursor conn ;;
  cursor_execute cursor (primary_keys_sql table_name) [] ;;
  keys <~ cursor_fetchall cursor ;;
  cursor_close cursor ;;
  conn_close conn ;;
  match keys with
  | [] => ret ("No primary keys found for table '" +:+ table_name +:+ "'.")
  | _ =>
      key_list <~ lift (comprehension (fun key => row_attr key 0 "COLUMN_NAME") keys) ;;
      lift (join_values ", " key_list)
  end.

(** [str(value[0])]. *)
Definition first_column_text (value : row) : result string :=
  match row_index value 0 with
  | Raise e => Raise e
  | Return v => Return (py_str v)
  end.

Definition get_distinct_values (table_name column_name : string) : M string :=
  conn <~ get_db_connection ;;
  cursor <~ conn_cursor conn ;;
  cursor_execute cursor (distinct_values_sql table_name column_name) [] ;;
  values <~ cursor_fetchall cursor ;;
  cursor_close cursor ;;
  conn_close conn ;;
  match values with
  | [] => ret ("No distinct values found in column '" +:+ column_name +:+
               "' of table '" +:+ table_name +:+ "'.")
  | _ =>
      value_list <~ lift (comprehension first_column_text values) ;;
      ret (join nl value_list)
  end.

(** The f-string of one foreign key. *)
Definition relationship_line (rel : row) : result string :=
  match row_attr rel 0 "ForeignKey" with
  | Raise e => Raise e
  | Return fk =>
  match row_attr rel 1 "ParentTable" with
  | Raise e => Raise e
  | Return pt =>
  match row_attr rel 2 "ParentColumn" with
  | Raise e => Raise e
  | Return pc =>
  match row_attr rel 3 "ReferencedTable" with
  | Raise e => Raise e
  | Return rt =>
  match row_attr rel 4 "ReferencedColumn" with
  | Raise e => Raise e
  | Return rc =>
      Return ("Foreign Key: " +:+ py_str fk +:+ ", " +:+ py_str pt +:+ "(" +:+ py_str pc +:+
              ") -> " +:+ py_str rt +:+ "(" +:+ py_str rc +:+ ")")
  end end end end end.

Definition get_table_relationships : M string :=
  conn <~ get_db_connection ;;
  cursor <~ conn_cursor conn ;;
  cursor_execute cursor relationships_sql [] ;;
  relationships <~ cursor_fetchall cursor ;;
  cursor_close cursor ;;
  conn_close conn ;;
  match relationships with
  | [] => ret "No foreign key relationships found in the database."
  | _ =>
      rel_list <~ lift (comprehension relationship_line relationships) ;;
      ret (join nl rel_list)
  end.

(** The ten parameters bound by one insert. *)
Definition insert_params (run_id user_id question : string) (row : gmap string value)
    (metric_name visual_hint : string) (created_at : value) : list value :=
  [ VStr run_id; VStr user_id; VStr question;
    dict_get row "x_value"; dict_get row "y_value";
    dict_get row "series"; dict_get row "category";
    VStr metric_name; VStr visual_hint; created_at ].

(** The loop [for row in results] with its counter. *)
Fixpoint insert_rows (cursor : nat) (run_id user_id question : string)
    (metric_name visual_hint : string) (created_at : value)
    (results : list (gmap string value)) (rows_inserted : nat) : M nat :=
  match results with
  | [] => ret rows_inserted
  | row :: rest =>
      cursor_execute cursor insert_sql
        (insert_params run_id user_id question row metric_name visual_hint created_at) ;;
      insert_rows cursor run_id user_id question metric_name visual_hint created_at
        rest (S rows_inserted)
  end.

Definition insert_agent_output_batch (user_id question : string)
    (results : list (gmap string value)) (metric_name visual_hint : string) : M string :=
  conn <~ get_db_connection ;;
  cursor <~ conn_cursor conn ;;
  run_id <~ uuid_uuid4 ;;
  created_at <~ datetime_now ;;
  rows_inserted <~ insert_rows cursor run_id user_id question metric_name visual_hint
                     created_at results 0 ;;
  conn_commit conn ;;
  cursor_close cursor ;;
  conn_close conn ;;
  ret ("Inserted " +:+ str_int (Z.of_nat rows_inserted) +:+
       " rows successfully. run_id: " +:+ run_id).

Definition VISUAL_PAGE_MAP : gmap string string :=
  <["linea" := "Line"]>
  (<["barras" := "Bar"]>
  (<["barras_agrupadas" := "StackedBar"]>
  (<["pie" := "PieChart"]> ∅))).

(** The value of the [filter] parameter, after [&filter=]. *)
Definition filter_value (run_id : string) : string :=
  "agent_output/run_id%20eq%20'" +:+ run_id +:+ "'".

Definition generate_powerbi_url (run_id visual_hint : string) : M string :=
  WORKSPACE_ID <~ os_getenv "WORKSPACE_ID" ;;
  REPORT_ID <~ os_getenv "REPORT_ID" ;;
  let page_name := default "ReportSectionBarras" (VISUAL_PAGE_MAP !! visual_hint) in
  let url :=
    "https://app.powerbi.com/groups/" +:+ str_opt WORKSPACE_ID +:+
    "/reports/" +:+ str_opt REPORT_ID +:+
    "?pageName=" +:+ page_name +:+
    "&filter=" +:+ filter_value run_id in
  ret url.

End Handlers.

(** *** The tool registry

    Every handler is registered with [@mcp.tool()]; a call names one of
    them and carries its arguments. *)
Inductive tool_call : Type :=
| CallExecuteSqlQuery (query : string)
| CallGetTableSchema (table_name : string)
| CallListTables
| CallGetDatabaseInfo
| CallGetTableRowCount (table_name : string)
| CallGetPrimaryKeys (table_name : string)
| CallGetDistinctValues (table_name column_name : string)
| CallGetTableRelationships
| CallInsertAgentOutputBatch (user_id question : string)
    (results : list (gmap string value)) (metric_name visual_hint : string)
| CallGeneratePowerbiUrl (run_id visual_hint : string).

Definition invoke (E : Env) (call : tool_call) : M string :=
  match call with
  | CallExecuteSqlQuery query => execute_sql_query E query
  | CallGetTableSchema table_name => get_table_schema E table_name
  | CallListTables => list_tables E
  | CallGetDatabaseInfo => get_database_info E
  | CallGetTableRowCount table_name => get_table_row_count E table_name
  | CallGetPrimaryKeys table_name => get_primary_keys E table_name
  | CallGetDistinctValues table_name column_name =>
      get_distinct_values E table_name column_name
  | CallGetTableRelationships => get_table_relationships E
  | CallInsertAgentOutputBatch user_id question results metric_name visual_hint =>
      insert_agent_output_batch E user_id question results metric_name visual_hint
  | CallGeneratePowerbiUrl run_id visual_hint => generate_powerbi_url E run_id visual_hint
  end.

(** The tools whose first statement is [conn = get_db_connection()]. *)
Definition opens_connection (call : tool_call) : bool :=
  match call with
  | CallGeneratePowerbiUrl _ _ => false
  | _ => true
  end.

(** ** Observations on a history *)

(** The connections opened, in order. *)
Fixpoint opened (evs : list event) : list nat :=
  match evs with
  | [] => []
  | EConnect c :: rest => c :: opened rest
  | _ :: rest => opened rest
  end.

(** How many times [conn.close()] ran for connection [c]. *)
Fixpoint closes (c : nat) (evs : list event) : nat :=
  match evs with
  | [] => 0
  | EClose c' :: rest => (if Nat.eqb c c' then 1 else 0) + closes c rest
  | _ :: rest => closes c rest
  end.

(** The statements issued to the database, in order. *)
Fixpoint statements (evs : list event) : list string :=
  match evs with
  | [] => []
  | EExecute _ stmt _ :: rest => stmt :: statements rest
  | _ :: rest => statements rest
  end.

(** The outcome of a handler started in history [h], with the events it
    added to the history. *)
Definition run {A : Type} (m : M A) (h : history) : result A * list event :=
  (fst (m h), drop (length h) (snd (m h))).

(** ** What an invocation does with its connection *)

(** The exceptions raised while formatting are not the driver's. *)
Definition raised_by_interpreter (e : exn) : Prop :=
  match e with
  | DbError _ => False
  | _ => True
  end.

(** The answer of the driver to the call logged as [ev], issued in history
    [h]: the error it raises when it refuses the call. *)
Definition refusal (E : Env) (h : history) (ev : event) : option db_error :=
  match ev with
  | EExecute _ stmt params => execute E h stmt params
  | EFetchAll _ =>
      match fetchall E h with
      | inl e => Some e
      | inr _ => None
      end
  | EFetchOne _ =>
      match fetchone E h with
      | inl e => Some e
      | inr _ => None
      end
  | ECommit _ => commit E h
  | _ => None
  end.

(** The first call among [evs], issued one after the other from history
    [h], that the driver refuses: its error and the events logged after
    that call. *)
Fixpoint first_refusal (E : Env) (h : history) (evs : list event)
    : option (db_error * list event) :=
  match evs with
  | [] => None
  | ev :: rest =>
      match refusal E h ev with
      | Some e => Some (e, rest)
      | None => first_refusal E (h ++ [ev]) rest
      end
  end.

(** What one invocation started in history [h] does with its connection,
    given its outcome [r] and the events [evs] it added.  When the driver
    refuses to connect, the invocation ends with that error and nothing is
    opened.  Otherwise one connection is opened, and the answers of the
    driver to the calls of the invocation decide: at the first call the
    driver refuses, the invocation ends with the error of that call, logs
    nothing after it and has not closed the connection; when the driver
    refuses none, the connection is closed once and the invocation returns
    or ends with an exception of the interpreter. *)
Definition release_spec (E : Env) (h : history) (r : result string) (evs : list event) : Prop :=
  match connect E h with
  | Some e => r = Raise (DbError e) /\ evs = []
  | None =>
      opened evs = [length h] /\
      match first_refusal E h evs with
      | Some (e, after) =>
          r = Raise (DbError e) /\ after = [] /\ closes (length h) evs = 0
      | None =>
          closes (length h) evs = 1 /\
          forall x, r = Raise x -> raised_by_interpreter x
      end
  end.

Definition releases (E : Env) (m : M string) : Prop :=
  forall h, exists evs, snd (m h) = h ++ evs /\ release_spec E h (fst (m h)) evs.

(** Whether an outcome is a normal return. *)
Definition returned {A : Type} (r : result A) : bool :=
  match r with
  | Return _ => true
  | Raise _ => false
  end.

(** What one invocation adds to the history, for the count of closes of
    every connection. *)
Definition own_connection (E : Env) (call : tool_call) (m : M string) : Prop :=
  forall h, exists evs,
    snd (m h) = h ++ evs /\
    (forall c, c <> length h -> closes c evs = 0) /\
    (forall c, In c (opened evs) -> c = length h) /\
    (returned (fst (m h)) = true ->
     opened evs = (if opens_connection call then [length h] else []) /\
     closes (length h) evs = length (opened evs)).

(** How many times [conn.commit()] was issued. *)
Fixpoint commits (evs : list event) : nat :=
  match evs with
  | [] => 0
  | ECommit _ :: rest => 1 + commits rest
  | _ :: rest => commits rest
  end.

(** The one tool that writes. *)
Definition is_batch_insert (call : tool_call) : bool :=
  match call with
  | CallInsertAgentOutputBatch _ _ _ _ _ => true
  | _ => false
  end.

(** The tools whose text is built around a fixed, non-empty piece. *)
Definition has_fixed_text (call : tool_call) : bool :=
  match call with
  | CallListTables | CallGetPrimaryKeys _ | CallGetDistinctValues _ _ => false
  | _ => true
  end.

(** Invocations served one after the other, each started in the history
    the previous one left: the outcomes in order and the final history. *)
Fixpoint invoke_all (E : Env) (calls : list tool_call) (h : history)
    : list (result string) * history :=
  match calls with
  | [] => ([], h)
  | call :: rest =>
      let '(r, h1) := invoke E call h in
      let '(rs, h2) := invoke_all E rest h1 in
      (r :: rs, h2)
  end.

(** ** Notions of the specification *)

(** The identifiers the specification accepts: every character is in
    [A-Za-z0-9_]. *)
Definition identifier_char (a : ascii) : bool :=
  let n := Ascii.nat_of_ascii a in
  (Nat.leb 65 n && Nat.leb n 90) || (Nat.leb 97 n && Nat.leb n 122)
  || (Nat.leb 48 n && Nat.leb n 57) || Nat.eqb n 95.

Fixpoint valid_identifier (s : string) : bool :=
  match s with
  | "" => true
  | String a rest => identifier_char a && valid_identifier rest
  end.

(** A table that the database does not have, as the invocation started in
    history [h] sees it through the driver: the two catalog queries about it
    are accepted and find no row, and a statement that selects from it is
    refused. *)
Definition absent_table (E : Env) (h : history) (table_name column_name : string) : Prop :=
  let c := length h in
  let h0 := h ++ [EConnect c; ECursor c] in
  execute E h0 (table_schema_sql table_name) [] = None /\
  fetchall E (h0 ++ [EExecute c (table_schema_sql table_name) []]) = inr [] /\
  execute E h0 (primary_keys_sql table_name) [] = None /\
  fetchall E (h0 ++ [EExecute c (primary_keys_sql table_name) []]) = inr [] /\
  is_Some (execute E h0 (row_count_sql table_name) []) /\
  is_Some (execute E h0 (distinct_values_sql table_name column_name) []).

(** The page names of the specification's table, with its default. *)
Definition spec_page_name (visual_hint : string) : string :=
  if String.eqb visual_hint "linea" then "Line"
  else if String.eqb visual_hint "barras" then "Bar"
  else if String.eqb visual_hint "barras_agrupadas" then "StackedBar"
  else if String.eqb visual_hint "pie" then "PieChart"
  else "ReportSectionBarras".

(** The filter the report is meant to receive: the run identifier compared
    with the column [run_id]. *)
Definition filter_expression (run_id : string) : string :=
  "agent_output/run_id eq '" +:+ run_id +:+ "'".

Definition hex_digit (a : ascii) : option nat :=
  let n := Ascii.nat_of_ascii a in
  if Nat.leb 48 n && Nat.leb n 57 then Some (n - 48)
  else if Nat.leb 65 n && Nat.leb n 70 then Some (n - 55)
  else if Nat.leb 97 n && Nat.leb n 102 then Some (n - 87)
  else None.

(** URL-decoding of a query value (percent-decoding, on bytes): [%XY] with
    two hexadecimal digits is the byte [XY], anything else stands for
    itself. *)
Fixpoint unquote (s : string) : string :=
  match s with
  | "" => ""
  | String a t1 =>
      if Ascii.eqb a "%"%char then
        match t1 with
        | String x (String y rest) =>
            match hex_digit x, hex_digit y with
            | Some hi, Some lo =>
                String (Ascii.ascii_of_nat (16 * hi + lo)) (unquote rest)
            | _, _ => String a (unquote t1)
            end
        | _ => String a (unquote t1)
        end
      else String a (unquote t1)
  end.

Definition is_hex (a : ascii) : bool :=
  match hex_digit a with
  | Some _ => true
  | None => false
  end.

(** Whether a text holds an escape: a percent sign followed by two
    hexadecimal digits. *)
Fixpoint has_escape (s : string) : bool :=
  match s with
  | "" => false
  | String a t1 =>
      (Ascii.eqb a "%"%char &&
       match t1 with
       | String x (String y _) => is_hex x && is_hex y
       | _ => false
       end) || has_escape t1
  end.

(** ** A small database for the examples

    A driver over a database with the tables [Customer] and [Product] in
    the schema [SalesLT].  It accepts the statements of the handlers about
    these tables and the three catalog-wide statements, refuses a select
    from any other table of [SalesLT] the way SQL Server does (invalid
    object name), and refuses any other text as a syntax error.  Its
    [repr_str] is [repr] on the strings of the examples, which hold no
    quote, backslash or control character. *)
Module Demo.

Definition invalid_object : db_error :=
  PyodbcError "ProgrammingError" "42S02: Invalid object name.".

Definition syntax_error : db_error :=
  PyodbcError "ProgrammingError" "42000: Incorrect syntax.".

Definition not_a_query : db_error :=
  PyodbcError "ProgrammingError" "No results.  Previous SQL was not a query.".

Definition rows_of (stmt : string) : list row :=
  if String.eqb stmt (table_schema_sql "Customer")
  then [[VStr "CustomerID"; VStr "int"]; [VStr "Title"; VStr "nvarchar"]]
  else if String.eqb stmt (primary_keys_sql "Customer") then [[VStr "CustomerID"]]
  else if String.eqb stmt (distinct_values_sql "Customer" "Title")
  then [[VStr "Mr."]; [VNone]; [VStr "Ms."]]
  else if String.eqb stmt (row_count_sql "Customer") then [[VInt 3]]
  else if String.eqb stmt (row_count_sql "Product") then [[VInt 0]]
  else if String.eqb stmt list_tables_sql then [[VStr "Customer"]; [VStr "Product"]]
  else if String.eqb stmt database_info_sql then [[VStr "delfos"; VStr "12.0.2000.8"]]
  else if String.eqb stmt "SELECT CustomerID, Title FROM SalesLT.Customer"
  then [[VInt 1; VStr "Mr."]; [VInt 2; VNone]; [VInt 3; VStr "Ms."]]
  else [].

Definition accepts (h : history) (stmt : string) (params : list value) : option db_error :=
  if String.eqb stmt insert_sql then None
  else if String.prefix "SELECT COLUMN_NAME, DATA_TYPE FROM INFORMATION_SCHEMA.COLUMNS" stmt
  then None
  else if String.eqb stmt list_tables_sql then None
  else if String.eqb stmt database_info_sql then None
  else if String.eqb stmt relationships_sql then None
  else if String.eqb stmt "SELECT CustomerID, Title FROM SalesLT.Customer" then None
  else if String.eqb stmt "SELECT 1 WHERE 1 = 0" then None
  else if String.prefix "SELECT COUNT(*) AS TotalRows FROM [SalesLT].[" stmt
  then if String.eqb stmt (row_count_sql "Customer") || String.eqb stmt (row_count_sql "Product")
       then None else Some invalid_object
  else if String.prefix "SELECT DISTINCT [" stmt
  then if String.eqb stmt (distinct_values_sql "Customer" "Title")
       then None else Some invalid_object
  else if String.prefix (nl +:+ "        SELECT COLUMN_NAME ") stmt then None
  else Some syntax_error.

Definition fetch_all (h : history) : db_error + list row :=
  match last h with
  | Some (EExecute _ stmt _) =>
      if String.eqb stmt insert_sql then inl not_a_query else inr (rows_of stmt)
  | _ => inl not_a_query
  end.

Definition fetch_one (h : history) : db_error + option row :=
  match fetch_all h with
  | inl e => inl e
  | inr rows => inr (head rows)
  end.

Definition env : Env := {|
  getenv := fun name =>
    if String.eqb name "WORKSPACE_ID" then Some "0a1b2c3d"
    else if String.eqb name "REPORT_ID" then Some "9f8e7d6c"
    else None;
  repr_str := fun s => "'" +:+ s +:+ "'";
  uuid4 := fun _ => "6f1c2b9e-3a4d-4e5f-8a7b-0c1d2e3f4a5b";
  now := fun _ => VObj "2025-03-01 12:00:00" "datetime.datetime(2025, 3, 1, 12, 0)";
  connect := fun _ => None;
  execute := accepts;
  fetchall := fetch_all;
  fetchone := fetch_one;
  commit := fun _ => None
|}.

End Demo.

(** The same driver over a catalog in which one key column has no name:
    every fetch yields the rows [CustomerID] and NULL. *)
Definition null_key_env : Env := {|
  getenv := getenv Demo.env;
  repr_str := repr_str Demo.env;
  uuid4 := uuid4 Demo.env;
  now := now Demo.env;
  connect := connect Demo.env;
  execute := execute Demo.env;
  fetchall := fun _ => inr [[VStr "CustomerID"]; [VNone]];
  fetchone := fetchone Demo.env;
  commit := commit Demo.env
|}.

(** A driver over an empty database: it accepts every statement and every
    fetch finds nothing. *)
Definition empty_env : Env := {|
  getenv := getenv Demo.env;
  repr_str := repr_str Demo.env;
  uuid4 := uuid4 Demo.env;
  now := now Demo.env;
  connect := fun _ => None;
  execute := fun _ _ _ => None;
  fetchall := fun _ => inr [];
  fetchone := fun _ => inr None;
  commit := fun _ => None
|}.

(** The same driver over a table whose column [x_value] does not take
    NULL: an insert that binds [None] there is refused. *)
Definition not_null_violation : db_error :=
  PyodbcError "IntegrityError" "23000: Cannot insert the value NULL into column 'x_value'.".

Definition strict_env : Env := {|
  getenv := getenv Demo.env;
  repr_str := repr_str Demo.env;
  uuid4 := uuid4 Demo.env;
  now := now Demo.env;
  connect := connect Demo.env;
  execute := fun h stmt params =>
    if String.eqb stmt insert_sql
    then match params !! 3 with
         | Some VNone => Some not_null_violation
         | _ => None
         end
    else execute Demo.env h stmt params;
  fetchall := fetchall Demo.env;
  fetchone := fetchone Demo.env;
  commit := commit Demo.env
|}.

(** ** Basic facts *)

Lemma run_app {A : Type} (m : M A) (h : history) (r : result A) (evs : list event) :
  m h = (r, h ++ evs) -> run m h = (r, evs).
Proof.
  intros Hm. unfold run. rewrite Hm. simpl. now rewrite drop_app_length.
Qed.

Lemma closes_app (c : nat) (evs1 evs2 : list event) :
  closes c (evs1 ++ evs2) = closes c evs1 + closes c evs2.
Proof.
  induction evs1 as [|e evs1 IH]; simpl; [reflexivity|].
  destruct e; simpl; rewrite IH; lia.
Qed.

Lemma opened_app (evs1 evs2 : list event) :
  opened (evs1 ++ evs2) = opened evs1 ++ opened evs2.
Proof.
  induction evs1 as [|e evs1 IH]; simpl; [reflexivity|].
  destruct e; simpl; rewrite IH; reflexivity.
Qed.

Lemma str_row_nonempty (E : Env) (r : row) : str_row E r <> "".
Proof.
  unfold str_row. destruct r as [|v [|w r]]; simpl; discriminate.
Qed.

Lemma join_nonempty (sep x : string) (xs : list string) :
  x <> "" -> join sep (x :: xs) <> "".
Proof.
  intros Hx. unfold join. destruct x as [|a x]; [congruence|].
  destruct xs; simpl; discriminate.
Qed.

(** Bring a history built by successive calls to the form [h ++ events]. *)
Ltac flatten_history := rewrite <- ?app_assoc; cbn [app].

(** Unfold a handler down to the answers of the driver. *)
Ltac enter_handler :=
  unfold bind, ret, lift, get_db_connection, conn_cursor, cursor_execute,
    cursor_fetchall, cursor_fetchone, conn_commit, cursor_close, conn_close,
    uuid_uuid4, datetime_now, os_getenv.

(** ** The generic query tool *)

(** C7: when the connection opens, the statement is accepted and the fetch
    yields [rows], [execute_sql_query] returns "No results found." for an
    empty [rows] and otherwise the lines [str(row)] joined by newlines, in
    fetch order; the connection is closed before the text is built. *)
Theorem execute_sql_query_result (E : Env) (query : string) (h : history) (rows : list row) :
  let c := length h in
  connect E h = None ->
  execute E (h ++ [EConnect c; ECursor c]) query [] = None ->
  fetchall E (h ++ [EConnect c; ECursor c; EExecute c query []]) = inr rows ->
  run (execute_sql_query E query) h =
    (Return (match rows with
             | [] => "No results found."
             | _ :: _ => join nl (map (str_row E) rows)
             end),
     [EConnect c; ECursor c; EExecute c query []; EFetchAll c; ECursorClose c; EClose c]).
Proof.
  intros c Hconn Hexec Hfetch. apply run_app.
  unfold execute_sql_query. enter_handler.
  rewrite Hconn. flatten_history. fold c. rewrite Hexec. flatten_history.
  rewrite Hfetch. flatten_history.
  destruct rows as [|r rows]; [reflexivity|].
  cbn [map]. destruct (join nl (str_row E r :: map (str_row E) rows)) eqn:Hj; [|reflexivity].
  exfalso. revert Hj. apply join_nonempty, str_row_nonempty.
Qed.

Lemma execute_sql_query_result_witness :
  run (execute_sql_query Demo.env "SELECT CustomerID, Title FROM SalesLT.Customer") [] =
    (Return ("(1, 'Mr.')" +:+ nl +:+ "(2, None)" +:+ nl +:+ "(3, 'Ms.')"),
     [EConnect 0; ECursor 0;
      EExecute 0 "SELECT CustomerID, Title FROM SalesLT.Customer" [];
      EFetchAll 0; ECursorClose 0; EClose 0]).
Proof.
  exact (execute_sql_query_result Demo.env
           "SELECT CustomerID, Title FROM SalesLT.Customer" []
           [[VInt 1; VStr "Mr."]; [VInt 2; VNone]; [VInt 3; VStr "Ms."]]
           eq_refl eq_refl eq_refl).
Defined.

(** ** Release of the connection *)

Lemma insert_rows_events (E : Env) (cursor : nat) (run_id user_id question : string)
    (metric_name visual_hint : string) (created_at : value)
    (results : list (gmap string value)) :
  forall (n : nat) (h : history),
    let '(r, h') := insert_rows E cursor run_id user_id question metric_name visual_hint
                      created_at results n h in
    exists evs, h' = h ++ evs /\ opened evs = [] /\ (forall c, closes c evs = 0) /\
                match r with
                | Raise (DbError _) | Return _ => True
                | Raise _ => False
                end.
Proof.
  induction results as [|row rest IH]; intros n h; simpl.
  - exists []. rewrite app_nil_r. auto.
  - unfold bind at 1. unfold cursor_execute.
    destruct (execute E h insert_sql _) as [e|].
    + eexists. split; [reflexivity|]. simpl. auto.
    + specialize (IH (S n) (h ++ [EExecute cursor insert_sql
          (insert_params run_id user_id question row metric_name visual_hint created_at)])).
      destruct (insert_rows _ _ _ _ _ _ _ _ _ _ _) as [r h'].
      destruct IH as (evs & -> & Ho & Hc & Hr).
      eexists. rewrite <- app_assoc. split; [reflexivity|].
      simpl. auto.
Qed.

Lemma row_attr_raise (r : row) (i : nat) (name : string) (e : exn) :
  row_attr r i name = Raise e -> raised_by_interpreter e.
Proof. unfold row_attr. destruct (r !! i); intros [= <-]. exact I. Qed.

Lemma fetched_attr_raise (o : option row) (i : nat) (name : string) (e : exn) :
  fetched_attr o i name = Raise e -> raised_by_interpreter e.
Proof.
  destruct o as [r|]; simpl; [apply row_attr_raise|]. intros [= <-]. exact I.
Qed.

Lemma schema_line_raise (col : row) (e : exn) :
  schema_line col = Raise e -> raised_by_interpreter e.
Proof.
  unfold schema_line.
  destruct (row_attr col 0 _) eqn:H0; [|intros [= <-]; eapply row_attr_raise, H0].
  destruct (row_attr col 1 _) eqn:H1; [discriminate|].
  intros [= <-]. eapply row_attr_raise, H1.
Qed.

Lemma first_column_text_raise (value : row) (e : exn) :
  first_column_text value = Raise e -> raised_by_interpreter e.
Proof.
  unfold first_column_text, row_index. destruct (value !! 0); intros [= <-]. exact I.
Qed.

Lemma relationship_line_raise (rel : row) (e : exn) :
  relationship_line rel = Raise e -> raised_by_interpreter e.
Proof.
  unfold relationship_line.
  repeat match goal with
         | |- context [row_attr ?r ?i ?n] =>
             let H := fresh "H" in
             destruct (row_attr r i n) eqn:H;
             [|intros [= <-]; eapply row_attr_raise, H]
         end.
  discriminate.
Qed.

Lemma comprehension_raise {A B : Type} (f : A -> result B) (l : list A) (e : exn) :
  (forall a e', f a = Raise e' -> raised_by_interpreter e') ->
  comprehension f l = Raise e -> raised_by_interpreter e.
Proof.
  intros Hf. induction l as [|a l IH]; simpl; [discriminate|].
  destruct (f a) eqn:Ha; [|intros [= <-]; eapply Hf, Ha].
  destruct (comprehension f l); [discriminate|].
  intros [= <-]. now apply IH.
Qed.

Lemma expect_strs_raise (items : list value) (e : exn) :
  forall i, expect_strs i items = Raise e -> raised_by_interpreter e.
Proof.
  induction items as [|v items IH]; intros i; simpl; [discriminate|].
  destruct v; try (intros [= <-]; exact I).
  destruct (expect_strs (S i) items) eqn:Hrest; [discriminate|].
  intros [= <-]. eapply IH, Hrest.
Qed.

Lemma join_values_raise (sep : string) (items : list value) (e : exn) :
  join_values sep items = Raise e -> raised_by_interpreter e.
Proof.
  unfold join_values. destruct (expect_strs 0 items) eqn:H; [discriminate|].
  intros [= <-]. eapply expect_strs_raise, H.
Qed.

Create HintDb formatting.
#[export] Hint Resolve row_attr_raise fetched_attr_raise schema_line_raise
  first_column_text_raise relationship_line_raise join_values_raise : formatting.

(** An exception raised by a formatting step leaves the count of closes
    at one. *)
Ltac formatting_raise :=
  match goal with
  | H : _ = Raise ?e |- context [match ?e with _ => _ end] =>
      let Hi := fresh "Hi" in
      assert (Hi : raised_by_interpreter e)
        by (first [ eapply comprehension_raise; [|exact H]; intros ? ?; cbn beta; eauto with formatting
                  | eauto with formatting ]);
      destruct e; [contradiction|..]
  end.

(** Case analysis on every answer of the driver in an unfolded handler,
    in the order of the calls. *)
Ltac driver_cases E :=
  repeat (first
    [ match goal with
      | |- context [execute E ?h ?s ?p] => destruct (execute E h s p) eqn:?
      end
    | match goal with
      | |- context [fetchall E ?h] => destruct (fetchall E h) eqn:?
      end
    | match goal with
      | |- context [fetchone E ?h] => destruct (fetchone E h) eqn:?
      end
    | match goal with
      | |- context [commit E ?h] => destruct (commit E h) eqn:?
      end ]; cbn beta iota).

(** Case analysis on the steps that format what was fetched. *)
Ltac format_cases :=
  repeat (first
    [ match goal with
      | |- context [match ?x with [] => _ | _ :: _ => _ end] => is_var x; destruct x
      end
    | match goal with
      | |- context [comprehension ?f ?l] => destruct (comprehension f l) eqn:?
      end
    | match goal with
      | |- context [join_values ?s ?l] => destruct (join_values s l) eqn:?
      end
    | match goal with
      | |- context [fetched_attr ?o ?i ?n] => destruct (fetched_attr o i n) eqn:?
      end
    | match goal with
      | |- context [match ?x with EmptyString => _ | String _ _ => _ end] =>
          destruct x eqn:?
      end ]; cbn beta iota).

(** Replace the answers of the driver by what the case analysis found. *)
Ltac use_answers E :=
  repeat (first
    [ match goal with
      | H : execute E _ _ _ = _ |- _ => rewrite H
      end
    | match goal with
      | H : fetchall E _ = _ |- _ => rewrite H
      end
    | match goal with
      | H : fetchone E _ = _ |- _ => rewrite H
      end
    | match goal with
      | H : commit E _ = _ |- _ => rewrite H
      end ]; cbn beta iota).

(** An outcome that is not an exception of the driver. *)
Ltac not_from_driver :=
  let x := fresh "x" in
  let Hx := fresh "Hx" in
  intros x Hx;
  first [ discriminate Hx
        | injection Hx as <-;
          first [ exact I
                | match goal with
                  | H : _ = Raise ?e |- raised_by_interpreter ?e =>
                      first [ eapply comprehension_raise; [|exact H];
                              intros ? ?; cbn beta; eauto with formatting
                            | eauto with formatting ]
                  end ] ].

Ltac prove_releases E h :=
  intros h; enter_handler;
  destruct (connect E h) eqn:Hconnect;
  [ exists []; rewrite app_nil_r; split; [reflexivity|];
    unfold release_spec; rewrite Hconnect; auto
  | cbn beta iota; driver_cases E; format_cases; cbn [fst snd];
    rewrite <- ?app_assoc in *; cbn [app] in *;
    eexists; (split; [reflexivity|]);
    unfold release_spec; rewrite Hconnect;
    cbn [opened closes first_refusal refusal];
    rewrite <- ?app_assoc; cbn [app]; use_answers E;
    rewrite ?Nat.eqb_refl;
    (split; [reflexivity|]);
    first [ split; [reflexivity | split; reflexivity]
          | split; [reflexivity | not_from_driver] ] ].

Lemma execute_sql_query_releases (E : Env) (query : string) :
  releases E (execute_sql_query E query).
Proof. unfold execute_sql_query. prove_releases E h. Qed.

Lemma get_table_schema_releases (E : Env) (table_name : string) :
  releases E (get_table_schema E table_name).
Proof. unfold get_table_schema. prove_releases E h. Qed.

Lemma list_tables_releases (E : Env) : releases E (list_tables E).
Proof. unfold list_tables. prove_releases E h. Qed.

Lemma get_database_info_releases (E : Env) : releases E (get_database_info E).
Proof. unfold get_database_info. prove_releases E h. Qed.

Lemma get_table_row_count_releases (E : Env) (table_name : string) :
  releases E (get_table_row_count E table_name).
Proof. unfold get_table_row_count. prove_releases E h. Qed.

Lemma get_primary_keys_releases (E : Env) (table_name : string) :
  releases E (get_primary_keys E table_name).
Proof. unfold get_primary_keys. prove_releases E h. Qed.

Lemma get_distinct_values_releases (E : Env) (table_name column_name : string) :
  releases E (get_distinct_values E table_name column_name).
Proof. unfold get_distinct_values. prove_releases E h. Qed.

Lemma get_table_relationships_releases (E : Env) : releases E (get_table_relationships E).
Proof. unfold get_table_relationships. prove_releases E h. Qed.

Lemma first_refusal_app (E : Env) (evs1 evs2 : list event) :
  forall h,
    first_refusal E h (evs1 ++ evs2) =
      match first_refusal E h evs1 with
      | Some (e, after) => Some (e, after ++ evs2)
      | None => first_refusal E (h ++ evs1) evs2
      end.
Proof.
  induction evs1 as [|ev evs1 IH]; intros h; cbn [app first_refusal].
  - now rewrite app_nil_r.
  - destruct (refusal E h ev); [reflexivity|].
    rewrite IH, <- app_assoc. reflexivity.
Qed.

(** The loop ends with an exception exactly at the first insert that the
    driver refuses, and with that error. *)
Lemma insert_rows_refusal (E : Env) (cursor : nat) (run_id user_id question : string)
    (metric_name visual_hint : string) (created_at : value)
    (results : list (gmap string value)) :
  forall (n : nat) (h : history),
    let '(r, h') := insert_rows E cursor run_id user_id question metric_name visual_hint
                      created_at results n h in
    exists evs, h' = h ++ evs /\ opened evs = [] /\ (forall c, closes c evs = 0) /\
                match r with
                | Return _ => first_refusal E h evs = None
                | Raise x => exists e, x = DbError e /\ first_refusal E h evs = Some (e, [])
                end.
Proof.
  induction results as [|row rest IH]; intros n h; simpl.
  - exists []. rewrite app_nil_r. auto.
  - unfold bind at 1. unfold cursor_execute.
    destruct (execute E h insert_sql _) as [e|] eqn:Hexec.
    + eexists. split; [reflexivity|]. cbn [opened closes first_refusal refusal].
      rewrite Hexec. eauto.
    + specialize (IH (S n) (h ++ [EExecute cursor insert_sql
          (insert_params run_id user_id question row metric_name visual_hint created_at)])).
      destruct (insert_rows _ _ _ _ _ _ _ _ _ _ _) as [r h'].
      destruct IH as (evs & -> & Ho & Hc & Hr).
      eexists. rewrite <- app_assoc. split; [reflexivity|].
      cbn [app opened closes first_refusal refusal]. rewrite Hexec. auto.
Qed.

Lemma insert_agent_output_batch_releases (E : Env) (user_id question : string)
    (results : list (gmap string value)) (metric_name visual_hint : string) :
  releases E (insert_agent_output_batch E user_id question results metric_name visual_hint).
Proof.
  intros h. unfold insert_agent_output_batch. enter_handler.
  destruct (connect E h) eqn:Hconnect.
  { exists []. rewrite app_nil_r. split; [reflexivity|].
    unfold release_spec. rewrite Hconnect. auto. }
  cbn beta iota.
  match goal with
  | |- context [insert_rows E ?c ?rid ?u ?q ?m ?v ?ts ?rs ?n ?h0] =>
      pose proof (insert_rows_refusal E c rid u q m v ts rs n h0) as Hloop;
      destruct (insert_rows E c rid u q m v ts rs n h0) as [r h']
  end.
  destruct Hloop as (evs & -> & Hopened & Hcloses & Hr).
  destruct r as [n|x]; cbn beta iota.
  - driver_cases E; cbn [fst snd];
      rewrite <- ?app_assoc in *; cbn [app] in *;
      (eexists; split; [reflexivity|]);
      unfold release_spec; rewrite Hconnect;
      cbn [opened closes first_refusal refusal];
      rewrite <- ?app_assoc; cbn [app];
      rewrite opened_app, closes_app, first_refusal_app, Hopened, Hcloses, Hr;
      cbn [opened closes first_refusal refusal app];
      rewrite <- ?app_assoc; cbn [app]; use_answers E;
      rewrite ?Nat.eqb_refl;
      (split; [reflexivity|]).
    + split; [reflexivity | split; reflexivity].
    + split; [reflexivity | intros ? [=]].
  - destruct Hr as (e & -> & Hr).
    cbn [fst snd]. rewrite <- ?app_assoc in *. cbn [app] in *.
    eexists. split; [reflexivity|].
    unfold release_spec. rewrite Hconnect.
    cbn [opened closes first_refusal refusal].
    rewrite <- ?app_assoc. cbn [app]. rewrite Hopened, Hcloses, Hr.
    split; [reflexivity | split; [reflexivity | split; reflexivity]].
Qed.

(** C1 (amended): a tool that opens a connection opens exactly one, unless
    the driver refuses to connect, in which case the tool ends with that
    error.  When the driver refuses none of the calls of the invocation,
    the connection is closed exactly once (whether the tool then returns
    or fails while formatting).  When the driver refuses a call
    ([execute], a fetch, [commit]), the tool ends at that call with the
    error of the driver and has not closed the connection. *)
Theorem connection_release (E : Env) (call : tool_call) (h : history) :
  opens_connection call = true ->
  release_spec E h (fst (run (invoke E call) h)) (snd (run (invoke E call) h)).
Proof.
  intros Hopens.
  assert (Hrel : releases E (invoke E call)).
  { destruct call; simpl in Hopens |- *; try discriminate.
    - apply execute_sql_query_releases.
    - apply get_table_schema_releases.
    - apply list_tables_releases.
    - apply get_database_info_releases.
    - apply get_table_row_count_releases.
    - apply get_primary_keys_releases.
    - apply get_distinct_values_releases.
    - apply get_table_relationships_releases.
    - apply insert_agent_output_batch_releases. }
  destruct (Hrel h) as (evs & Hsnd & Hspec).
  unfold run. cbn [fst snd]. rewrite Hsnd, drop_app_length. exact Hspec.
Qed.

Lemma connection_release_witness :
  release_spec Demo.env []
    (Return "Table 'Customer' has 3 rows.")
    [EConnect 0; ECursor 0;
     EExecute 0 "SELECT COUNT(*) AS TotalRows FROM [SalesLT].[Customer]" [];
     EFetchOne 0; ECursorClose 0; EClose 0] /\
  release_spec Demo.env []
    (Raise (DbError Demo.invalid_object))
    [EConnect 0; ECursor 0;
     EExecute 0 "SELECT COUNT(*) AS TotalRows FROM [SalesLT].[Ghost]" []].
Proof.
  exact (conj (connection_release Demo.env (CallGetTableRowCount "Customer") [] eq_refl)
              (connection_release Demo.env (CallGetTableRowCount "Ghost") [] eq_refl)).
Defined.

(** C1 as stated fails: the statement of [execute_sql_query] is refused by
    the driver, the exception leaves the handler, and the connection it
    opened has not been closed. *)
Lemma connection_not_released_on_error :
  opens_connection (CallExecuteSqlQuery "SELEC 1") = true /\
  run (invoke Demo.env (CallExecuteSqlQuery "SELEC 1")) [] =
    (Raise (DbError Demo.syntax_error),
     [EConnect 0; ECursor 0; EExecute 0 "SELEC 1" []]) /\
  closes 0 (snd (run (invoke Demo.env (CallExecuteSqlQuery "SELEC 1")) [])) = 0 /\
  closes 0 (snd (run (invoke Demo.env (CallExecuteSqlQuery "SELEC 1")) [])) <> 1.
Proof. repeat split; try reflexivity. discriminate. Qed.

(** ** Tables that are not in the catalog *)

(** C2 (amended): for a table absent from the catalog, [get_table_schema]
    and [get_primary_keys] return their "not found" message, while
    [get_table_row_count] and [get_distinct_values] end, right after
    issuing their statement, with the error the driver raised for it. *)
Theorem absent_table_outcomes (E : Env) (table_name column_name : string) (h : history) :
  let c := length h in
  connect E h = None ->
  absent_table E h table_name column_name ->
  run (get_table_schema E table_name) h =
    (Return ("No schema found for table '" +:+ table_name +:+ "'."),
     [EConnect c; ECursor c; EExecute c (table_schema_sql table_name) []; EFetchAll c;
      ECursorClose c; EClose c]) /\
  run (get_primary_keys E table_name) h =
    (Return ("No primary keys found for table '" +:+ table_name +:+ "'."),
     [EConnect c; ECursor c; EExecute c (primary_keys_sql table_name) []; EFetchAll c;
      ECursorClose c; EClose c]) /\
  (exists e,
     execute E (h ++ [EConnect c; ECursor c]) (row_count_sql table_name) [] = Some e /\
     run (get_table_row_count E table_name) h =
       (Raise (DbError e),
        [EConnect c; ECursor c; EExecute c (row_count_sql table_name) []])) /\
  (exists e,
     execute E (h ++ [EConnect c; ECursor c])
       (distinct_values_sql table_name column_name) [] = Some e /\
     run (get_distinct_values E table_name column_name) h =
       (Raise (DbError e),
        [EConnect c; ECursor c;
         EExecute c (distinct_values_sql table_name column_name) []])).
Proof.
  intros c Hconn (Hs & Hsrows & Hk & Hkrows & [e1 Hcount] & [e2 Hdistinct]).
  cbn zeta in *. fold c in Hs, Hsrows, Hk, Hkrows, Hcount, Hdistinct.
  revert Hsrows Hkrows. flatten_history. intros Hsrows Hkrows.
  repeat split.
  - apply run_app. unfold get_table_schema. enter_handler.
    rewrite Hconn. flatten_history. fold c.
    rewrite Hs. flatten_history. rewrite Hsrows. flatten_history. reflexivity.
  - apply run_app. unfold get_primary_keys. enter_handler.
    rewrite Hconn. flatten_history. fold c.
    rewrite Hk. flatten_history. rewrite Hkrows. flatten_history. reflexivity.
  - exists e1. split; [exact Hcount|].
    apply run_app. unfold get_table_row_count. enter_handler.
    rewrite Hconn. flatten_history. fold c.
    rewrite Hcount. flatten_history. reflexivity.
  - exists e2. split; [exact Hdistinct|].
    apply run_app. unfold get_distinct_values. enter_handler.
    rewrite Hconn. flatten_history. fold c.
    rewrite Hdistinct. flatten_history. reflexivity.
Qed.

Lemma absent_table_outcomes_witness :
  run (get_table_schema Demo.env "Ghost") [] =
    (Return "No schema found for table 'Ghost'.",
     [EConnect 0; ECursor 0; EExecute 0 (table_schema_sql "Ghost") []; EFetchAll 0;
      ECursorClose 0; EClose 0]) /\
  run (get_primary_keys Demo.env "Ghost") [] =
    (Return "No primary keys found for table 'Ghost'.",
     [EConnect 0; ECursor 0; EExecute 0 (primary_keys_sql "Ghost") []; EFetchAll 0;
      ECursorClose 0; EClose 0]) /\
  (exists e,
     execute Demo.env [EConnect 0; ECursor 0] (row_count_sql "Ghost") [] = Some e /\
     run (get_table_row_count Demo.env "Ghost") [] =
       (Raise (DbError e),
        [EConnect 0; ECursor 0; EExecute 0 (row_count_sql "Ghost") []])) /\
  (exists e,
     execute Demo.env [EConnect 0; ECursor 0] (distinct_values_sql "Ghost" "Title") []
       = Some e /\
     run (get_distinct_values Demo.env "Ghost" "Title") [] =
       (Raise (DbError e),
        [EConnect 0; ECursor 0; EExecute 0 (distinct_values_sql "Ghost" "Title") []])).
Proof.
  apply (absent_table_outcomes Demo.env "Ghost" "Title" []).
  - reflexivity.
  - repeat split; try reflexivity; eexists; reflexivity.
Defined.

(** C2 as stated fails: the table [Ghost] is absent, and the row count and
    the distinct values of one of its columns end with the driver's error
    instead of a message. *)
Lemma absent_table_raises :
  absent_table Demo.env [] "Ghost" "Title" /\
  run (get_table_row_count Demo.env "Ghost") [] =
    (Raise (DbError Demo.invalid_object),
     [EConnect 0; ECursor 0;
      EExecute 0 "SELECT COUNT(*) AS TotalRows FROM [SalesLT].[Ghost]" []]) /\
  run (get_distinct_values Demo.env "Ghost" "Title") [] =
    (Raise (DbError Demo.invalid_object),
     [EConnect 0; ECursor 0;
      EExecute 0 "SELECT DISTINCT [Title] FROM [SalesLT].[Ghost]" []]).
Proof.
  split; [|split; reflexivity].
  repeat split; try reflexivity; eexists; reflexivity.
Qed.

(** X16: when the statement of [get_distinct_values] is accepted and the
    fetch finds no row, the tool returns its message with the column and
    the table as given. *)
Lemma get_distinct_values_empty (E : Env) (table_name column_name : string) (h : history) :
  let c := length h in
  connect E h = None ->
  execute E (h ++ [EConnect c; ECursor c]) (distinct_values_sql table_name column_name) []
    = None ->
  fetchall E (h ++ [EConnect c; ECursor c;
                    EExecute c (distinct_values_sql table_name column_name) []]) = inr [] ->
  fst (run (get_distinct_values E table_name column_name) h) =
    Return ("No distinct values found in column '" +:+ column_name +:+
            "' of table '" +:+ table_name +:+ "'.").
Proof.
  intros c Hconn Hexec Hfetch. unfold run. cbn [fst].
  unfold get_distinct_values. enter_handler. rewrite Hconn. flatten_history.
  fold c. rewrite Hexec. flatten_history. rewrite Hfetch. reflexivity.
Qed.

(** X15: whatever the driver answers, a text that [get_table_row_count]
    returns is the sentence with the table name and a count: the tool has
    no message for a missing table. *)
Lemma get_table_row_count_returns (E : Env) (table_name : string) (h : history) (s : string) :
  fst (run (get_table_row_count E table_name) h) = Return s ->
  exists total, s = "Table '" +:+ table_name +:+ "' has " +:+ py_str total +:+ " rows.".
Proof.
  unfold run. cbn [fst]. unfold get_table_row_count. enter_handler.
  destruct (connect E h); [discriminate|]. cbn beta iota.
  driver_cases E; try discriminate.
  format_cases; try discriminate.
  cbn [fst]. intros [= <-]. eauto.
Qed.

(** ** Identifiers *)

(** C4 (amended): the tools that take identifiers do not validate them:
    once the connection is open, for every table and column name the one
    statement issued to the database is the statement text with the name
    interpolated as given. *)
Theorem identifiers_interpolated (E : Env) (table_name column_name : string) (h : history) :
  connect E h = None ->
  statements (snd (run (get_table_schema E table_name) h)) =
    [table_schema_sql table_name] /\
  statements (snd (run (get_primary_keys E table_name) h)) =
    [primary_keys_sql table_name] /\
  statements (snd (run (get_table_row_count E table_name) h)) =
    [row_count_sql table_name] /\
  statements (snd (run (get_distinct_values E table_name column_name) h)) =
    [distinct_values_sql table_name column_name].
Proof.
  intros Hconn. unfold run. cbn [snd].
  repeat split.
  - unfold get_table_schema. enter_handler. rewrite Hconn. cbn beta iota.
    driver_cases E; format_cases; cbn [snd]; flatten_history;
      rewrite drop_app_length; reflexivity.
  - unfold get_primary_keys. enter_handler. rewrite Hconn. cbn beta iota.
    driver_cases E; format_cases; cbn [snd]; flatten_history;
      rewrite drop_app_length; reflexivity.
  - unfold get_table_row_count. enter_handler. rewrite Hconn. cbn beta iota.
    driver_cases E; format_cases; cbn [snd]; flatten_history;
      rewrite drop_app_length; reflexivity.
  - unfold get_distinct_values. enter_handler. rewrite Hconn. cbn beta iota.
    driver_cases E; format_cases; cbn [snd]; flatten_history;
      rewrite drop_app_length; reflexivity.
Qed.

Lemma identifiers_interpolated_witness :
  statements (snd (run (get_table_schema Demo.env "Customer'--") [])) =
    ["SELECT COLUMN_NAME, DATA_TYPE FROM INFORMATION_SCHEMA.COLUMNS WHERE TABLE_NAME = 'Customer'--'"].
Proof.
  exact (proj1 (identifiers_interpolated Demo.env "Customer'--" "Title" [] eq_refl)).
Defined.

(** C4 as stated fails: a table name with a quote, a semicolon and spaces
    is not refused; the statement that contains it is issued and the tool
    returns normally. *)
Lemma invalid_identifier_reaches_database :
  valid_identifier "x'; DROP TABLE t;--" = false /\
  run (get_table_schema Demo.env "x'; DROP TABLE t;--") [] =
    (Return "No schema found for table 'x'; DROP TABLE t;--'.",
     [EConnect 0; ECursor 0;
      EExecute 0
        "SELECT COLUMN_NAME, DATA_TYPE FROM INFORMATION_SCHEMA.COLUMNS WHERE TABLE_NAME = 'x'; DROP TABLE t;--'"
        [];
      EFetchAll 0; ECursorClose 0; EClose 0]).
Proof. split; reflexivity. Qed.

(** ** The batch insert *)

(** The loop, when it ends normally, has issued one insert per row, in
    order, and has counted the rows. *)
Lemma insert_rows_success (E : Env) (cursor : nat) (run_id user_id question : string)
    (metric_name visual_hint : string) (created_at : value)
    (results : list (gmap string value)) :
  forall (n k : nat) (h h' : history),
    insert_rows E cursor run_id user_id question metric_name visual_hint created_at
      results n h = (Return k, h') ->
    k = n + length results /\
    h' = h ++ map (fun row => EExecute cursor insert_sql
                     (insert_params run_id user_id question row metric_name visual_hint
                        created_at)) results.
Proof.
  induction results as [|row rest IH]; intros n k h h'; simpl.
  - unfold ret. intros [= <- <-]. rewrite app_nil_r. split; [lia|reflexivity].
  - unfold bind at 1. unfold cursor_execute.
    destruct (execute E h insert_sql _); [discriminate|].
    intros Hrest. apply IH in Hrest as [-> ->].
    rewrite <- app_assoc. split; [lia|reflexivity].
Qed.

(** C3: a call of [insert_agent_output_batch] that returns has drawn one
    run identifier and one timestamp, has issued one insert per result row
    with that identifier and that timestamp among its parameters, then one
    commit, and returns the number of rows with the identifier. *)
Theorem insert_batch_shares_run_id (E : Env) (user_id question : string)
    (results : list (gmap string value)) (metric_name visual_hint : string) (h : history) :
  let c := length h in
  let run_id := uuid4 E (h ++ [EConnect c; ECursor c]) in
  let created_at := now E (h ++ [EConnect c; ECursor c; EUuid4 run_id]) in
  returned (fst (run (insert_agent_output_batch E user_id question results
                        metric_name visual_hint) h)) = true ->
  run (insert_agent_output_batch E user_id question results metric_name visual_hint) h =
    (Return ("Inserted " +:+ str_int (Z.of_nat (length results)) +:+
             " rows successfully. run_id: " +:+ run_id),
     [EConnect c; ECursor c; EUuid4 run_id; ENow created_at] ++
     map (fun row => EExecute c insert_sql
            (insert_params run_id user_id question row metric_name visual_hint created_at))
         results ++
     [ECommit c; ECursorClose c; EClose c]).
Proof.
  intros c run_id created_at. unfold run. cbn [fst snd].
  unfold insert_agent_output_batch. enter_handler.
  destruct (connect E h); [discriminate|]. cbn beta iota. flatten_history.
  fold c. fold run_id. fold created_at.
  destruct (insert_rows E c run_id user_id question metric_name visual_hint created_at
              results 0 _) as [[k|e] h'] eqn:Hloop; cbn beta iota; [|discriminate].
  apply insert_rows_success in Hloop as [-> ->].
  destruct (commit E _); cbn [fst snd returned]; [discriminate|]. intros _.
  flatten_history. unfold c at 1. rewrite drop_app_length. reflexivity.
Qed.

Lemma insert_batch_shares_run_id_witness :
  run (insert_agent_output_batch Demo.env "ana@example.com" "Sales by country"
         [ {[ "x_value" := VStr "United States"; "y_value" := VInt 123456 ]};
           {[ "x_value" := VStr "Canada"; "category" := VStr "Canada" ]} ]
         "sales" "pie") [] =
    (Return "Inserted 2 rows successfully. run_id: 6f1c2b9e-3a4d-4e5f-8a7b-0c1d2e3f4a5b",
     [EConnect 0; ECursor 0;
      EUuid4 "6f1c2b9e-3a4d-4e5f-8a7b-0c1d2e3f4a5b";
      ENow (VObj "2025-03-01 12:00:00" "datetime.datetime(2025, 3, 1, 12, 0)");
      EExecute 0 insert_sql
        [VStr "6f1c2b9e-3a4d-4e5f-8a7b-0c1d2e3f4a5b"; VStr "ana@example.com";
         VStr "Sales by country"; VStr "United States"; VInt 123456; VNone; VNone;
         VStr "sales"; VStr "pie";
         VObj "2025-03-01 12:00:00" "datetime.datetime(2025, 3, 1, 12, 0)"];
      EExecute 0 insert_sql
        [VStr "6f1c2b9e-3a4d-4e5f-8a7b-0c1d2e3f4a5b"; VStr "ana@example.com";
         VStr "Sales by country"; VStr "Canada"; VNone; VNone; VStr "Canada";
         VStr "sales"; VStr "pie";
         VObj "2025-03-01 12:00:00" "datetime.datetime(2025, 3, 1, 12, 0)"];
      ECommit 0; ECursorClose 0; EClose 0]).
Proof.
  exact (insert_batch_shares_run_id Demo.env "ana@example.com" "Sales by country"
           [ {[ "x_value" := VStr "United States"; "y_value" := VInt 123456 ]};
             {[ "x_value" := VStr "Canada"; "category" := VStr "Canada" ]} ]
           "sales" "pie" [] eq_refl).
Defined.

(** C8: with an empty sequence of results, and a driver that connects and
    commits, [insert_agent_output_batch] issues no statement, still draws a
    run identifier and a timestamp, commits, closes, and returns the
    confirmation for 0 rows with that identifier. *)
Theorem insert_batch_empty (E : Env) (user_id question metric_name visual_hint : string)
    (h : history) :
  let c := length h in
  let run_id := uuid4 E (h ++ [EConnect c; ECursor c]) in
  let created_at := now E (h ++ [EConnect c; ECursor c; EUuid4 run_id]) in
  connect E h = None ->
  commit E (h ++ [EConnect c; ECursor c; EUuid4 run_id; ENow created_at]) = None ->
  run (insert_agent_output_batch E user_id question [] metric_name visual_hint) h =
    (Return ("Inserted 0 rows successfully. run_id: " +:+ run_id),
     [EConnect c; ECursor c; EUuid4 run_id; ENow created_at;
      ECommit c; ECursorClose c; EClose c]) /\
  statements (snd (run (insert_agent_output_batch E user_id question [] metric_name
                          visual_hint) h)) = [].
Proof.
  intros c run_id created_at Hconn Hcommit.
  assert (Hrun : run (insert_agent_output_batch E user_id question [] metric_name
                        visual_hint) h =
                 (Return ("Inserted 0 rows successfully. run_id: " +:+ run_id),
                  [EConnect c; ECursor c; EUuid4 run_id; ENow created_at;
                   ECommit c; ECursorClose c; EClose c])).
  { apply run_app. unfold insert_agent_output_batch. enter_handler.
    rewrite Hconn. cbn [insert_rows]. unfold ret. flatten_history.
    fold c. fold run_id. fold created_at. rewrite Hcommit.
    flatten_history. reflexivity. }
  split; [exact Hrun|]. rewrite Hrun. reflexivity.
Qed.

Lemma insert_batch_empty_witness :
  run (insert_agent_output_batch Demo.env "ana@example.com" "Sales by country" []
         "sales" "pie") [] =
    (Return "Inserted 0 rows successfully. run_id: 6f1c2b9e-3a4d-4e5f-8a7b-0c1d2e3f4a5b",
     [EConnect 0; ECursor 0;
      EUuid4 "6f1c2b9e-3a4d-4e5f-8a7b-0c1d2e3f4a5b";
      ENow (VObj "2025-03-01 12:00:00" "datetime.datetime(2025, 3, 1, 12, 0)");
      ECommit 0; ECursorClose 0; EClose 0]).
Proof.
  exact (proj1 (insert_batch_empty Demo.env "ana@example.com" "Sales by country"
                  "sales" "pie" [] eq_refl eq_refl)).
Defined.

(** ** The report URL *)

Lemma page_name_lookup (visual_hint : string) :
  default "ReportSectionBarras" (VISUAL_PAGE_MAP !! visual_hint) = spec_page_name visual_hint.
Proof.
  unfold VISUAL_PAGE_MAP, spec_page_name.
  destruct (String.eqb_spec visual_hint "linea") as [->|H1]; [reflexivity|].
  rewrite lookup_insert_ne by congruence.
  destruct (String.eqb_spec visual_hint "barras") as [->|H2]; [reflexivity|].
  rewrite lookup_insert_ne by congruence.
  destruct (String.eqb_spec visual_hint "barras_agrupadas") as [->|H3]; [reflexivity|].
  rewrite lookup_insert_ne by congruence.
  destruct (String.eqb_spec visual_hint "pie") as [->|H4]; [reflexivity|].
  rewrite lookup_insert_ne by congruence.
  reflexivity.
Qed.

(** What [generate_powerbi_url] computes, in any history. *)
Lemma generate_powerbi_url_run (E : Env) (run_id visual_hint : string) (h : history) :
  run (generate_powerbi_url E run_id visual_hint) h =
    (Return ("https://app.powerbi.com/groups/" +:+ str_opt (getenv E "WORKSPACE_ID") +:+
             "/reports/" +:+ str_opt (getenv E "REPORT_ID") +:+
             "?pageName=" +:+
             default "ReportSectionBarras" (VISUAL_PAGE_MAP !! visual_hint) +:+
             "&filter=" +:+ filter_value run_id),
     []).
Proof.
  apply run_app. unfold generate_powerbi_url. enter_handler.
  rewrite app_nil_r. reflexivity.
Qed.

(** C6: [generate_powerbi_url] returns the address made of the workspace
    and report identifiers of the environment (the text [None] for a
    variable that is not set), the page of the table for a known visual
    hint and the default page for any other, and the filter on the given
    run identifier. *)
Theorem generate_powerbi_url_result (E : Env) (run_id visual_hint : string) (h : history) :
  run (generate_powerbi_url E run_id visual_hint) h =
    (Return ("https://app.powerbi.com/groups/" +:+ str_opt (getenv E "WORKSPACE_ID") +:+
             "/reports/" +:+ str_opt (getenv E "REPORT_ID") +:+
             "?pageName=" +:+ spec_page_name visual_hint +:+
             "&filter=agent_output/run_id%20eq%20'" +:+ run_id +:+ "'"),
     []).
Proof.
  rewrite generate_powerbi_url_run, page_name_lookup. reflexivity.
Qed.

Example generate_powerbi_url_linea :
  run (generate_powerbi_url Demo.env "6f1c2b9e" "linea") [] =
    (Return ("https://app.powerbi.com/groups/0a1b2c3d/reports/9f8e7d6c?pageName=Line"
             +:+ "&filter=agent_output/run_id%20eq%20'6f1c2b9e'"), []).
Proof. reflexivity. Qed.

Example generate_powerbi_url_unknown_hint :
  run (generate_powerbi_url Demo.env "6f1c2b9e" "bar") [] =
    (Return ("https://app.powerbi.com/groups/0a1b2c3d/reports/9f8e7d6c"
             +:+ "?pageName=ReportSectionBarras"
             +:+ "&filter=agent_output/run_id%20eq%20'6f1c2b9e'"), []).
Proof. reflexivity. Qed.

(** C9: the URL depends only on the two arguments and the two environment
    variables; the tool always returns and adds nothing to the history,
    whatever the history and the driver are. *)
Theorem generate_powerbi_url_deterministic (E1 E2 : Env) (run_id visual_hint : string)
    (h1 h2 : history) :
  getenv E1 "WORKSPACE_ID" = getenv E2 "WORKSPACE_ID" ->
  getenv E1 "REPORT_ID" = getenv E2 "REPORT_ID" ->
  exists url,
    run (generate_powerbi_url E1 run_id visual_hint) h1 = (Return url, []) /\
    run (generate_powerbi_url E2 run_id visual_hint) h2 = (Return url, []).
Proof.
  intros Hw Hr. eexists. split.
  - apply generate_powerbi_url_run.
  - rewrite generate_powerbi_url_run, Hw, Hr. reflexivity.
Qed.

Lemma generate_powerbi_url_deterministic_witness :
  exists url,
    run (generate_powerbi_url Demo.env "6f1c2b9e" "pie") [] = (Return url, []) /\
    run (generate_powerbi_url Demo.env "6f1c2b9e" "pie") [EConnect 0; EClose 0] =
      (Return url, []).
Proof.
  exact (generate_powerbi_url_deterministic Demo.env Demo.env "6f1c2b9e" "pie"
           [] [EConnect 0; EClose 0] eq_refl eq_refl).
Defined.

Lemma append_cons (a : ascii) (s t : string) : String a s +:+ t = String a (s +:+ t).
Proof. reflexivity. Qed.

Lemma append_assoc (s1 s2 s3 : string) : (s1 +:+ s2) +:+ s3 = s1 +:+ s2 +:+ s3.
Proof.
  induction s1 as [|a s1 IH]; [reflexivity|]. now rewrite !append_cons, IH.
Qed.

Lemma append_inj_l (s t1 t2 : string) : s +:+ t1 = s +:+ t2 -> t1 = t2.
Proof.
  induction s as [|a s IH]; [trivial|]. rewrite !append_cons. intros [= H]. auto.
Qed.

Lemma unquote_no_escape (s : string) : has_escape s = false -> unquote s = s.
Proof.
  induction s as [|a t1 IH]; [reflexivity|].
  cbn [unquote has_escape]. intros H. apply orb_false_elim in H as [Hhere Hrest].
  specialize (IH Hrest).
  destruct (Ascii.eqb a "%"); [|now rewrite IH].
  destruct t1 as [|x [|y rest]]; try (now rewrite IH).
  unfold is_hex in Hhere.
  destruct (hex_digit x); [|now rewrite IH].
  destruct (hex_digit y); [discriminate Hhere | now rewrite IH].
Qed.

Lemma unquote_shorter (n : nat) :
  forall s, String.length s <= n ->
    String.length (unquote s) <= String.length s /\
    (has_escape s = true -> String.length (unquote s) < String.length s).
Proof.
  induction n as [|n IH]; intros s Hlen.
  - destruct s; [|simpl in Hlen; lia]. split; [reflexivity | discriminate].
  - destruct s as [|a t1]; [split; [reflexivity | discriminate]|].
    cbn [String.length] in Hlen.
    destruct (IH t1 ltac:(lia)) as [Hle Hlt].
    assert (Hkeep : String.length (String a (unquote t1)) <= String.length (String a t1) /\
                    (has_escape t1 = true ->
                     String.length (String a (unquote t1)) < String.length (String a t1))).
    { cbn [String.length]. split; [lia|]. intros H. specialize (Hlt H). lia. }
    cbn [unquote has_escape].
    destruct (Ascii.eqb a "%"); [|exact Hkeep].
    destruct t1 as [|x [|y rest]]; try exact Hkeep.
    unfold is_hex.
    destruct (hex_digit x); [|exact Hkeep].
    destruct (hex_digit y); [|exact Hkeep].
    cbn [String.length] in Hlen |- *.
    destruct (IH rest ltac:(lia)) as [Hrest _]. split; [lia | intros _; lia].
Qed.

Lemma unquote_escape (s : string) : has_escape s = true -> unquote s <> s.
Proof.
  intros H Heq.
  destruct (unquote_shorter (String.length s) s (le_n _)) as [_ Hlt].
  specialize (Hlt H). rewrite Heq in Hlt. lia.
Qed.

Lemma has_escape_quote (s : string) : has_escape (s +:+ "'") = has_escape s.
Proof.
  induction s as [|a s IH]; [reflexivity|].
  rewrite append_cons. cbn [has_escape]. rewrite IH. f_equal. f_equal.
  destruct s as [|x [|y rest]]; [reflexivity | | reflexivity].
  rewrite !append_cons. apply andb_false_r.
Qed.

Lemma unquote_filter_prefix (s : string) :
  unquote ("agent_output/run_id%20eq%20'" +:+ s) = "agent_output/run_id eq '" +:+ unquote s.
Proof. reflexivity. Qed.

(** C5 (amended): the URL ends with [&filter=] and the filter value, in
    which the run identifier stands as given, between quotes, not
    percent-encoded; URL-decoding the filter value gives the filter
    expression on that run identifier exactly when the run identifier has
    no percent sign followed by two hexadecimal digits. *)
Theorem filter_value_decodes (E : Env) (run_id visual_hint : string) (h : history) :
  (exists address,
     fst (run (generate_powerbi_url E run_id visual_hint) h) =
       Return (address +:+ "&filter=" +:+ filter_value run_id)) /\
  filter_value run_id = "agent_output/run_id%20eq%20'" +:+ run_id +:+ "'" /\
  (unquote (filter_value run_id) = filter_expression run_id <->
   has_escape run_id = false).
Proof.
  split; [|split].
  - eexists. rewrite generate_powerbi_url_run. cbn [fst].
    rewrite <- !append_assoc. reflexivity.
  - reflexivity.
  - unfold filter_value, filter_expression. rewrite unquote_filter_prefix. split.
    + intros H. apply append_inj_l in H.
      destruct (has_escape run_id) eqn:Hesc; [|reflexivity].
      exfalso. revert H. apply unquote_escape. now rewrite has_escape_quote.
    + intros Hesc. f_equal. apply unquote_no_escape. now rewrite has_escape_quote.
Qed.

Lemma filter_value_decodes_witness :
  (exists address,
     fst (run (generate_powerbi_url Demo.env "6f1c2b9e-3a4d-4e5f-8a7b-0c1d2e3f4a5b" "pie")
            []) =
       Return (address +:+ "&filter=" +:+
               filter_value "6f1c2b9e-3a4d-4e5f-8a7b-0c1d2e3f4a5b")) /\
  filter_value "6f1c2b9e-3a4d-4e5f-8a7b-0c1d2e3f4a5b" =
    "agent_output/run_id%20eq%20'6f1c2b9e-3a4d-4e5f-8a7b-0c1d2e3f4a5b'" /\
  unquote (filter_value "6f1c2b9e-3a4d-4e5f-8a7b-0c1d2e3f4a5b") =
    filter_expression "6f1c2b9e-3a4d-4e5f-8a7b-0c1d2e3f4a5b".
Proof.
  destruct (filter_value_decodes Demo.env "6f1c2b9e-3a4d-4e5f-8a7b-0c1d2e3f4a5b" "pie" [])
    as (Hurl & Htext & Hdecode).
  split; [exact Hurl | split; [exact Htext | apply Hdecode; reflexivity]].
Defined.

(** C5 as stated fails: a run identifier with a percent sign is not
    encoded, and decoding the filter value of the URL gives the filter on
    another identifier. *)
Lemma filter_value_not_encoded :
  run (generate_powerbi_url Demo.env "A%42" "pie") [] =
    (Return ("https://app.powerbi.com/groups/0a1b2c3d/reports/9f8e7d6c?pageName=PieChart"
             +:+ "&filter=" +:+ filter_value "A%42"), []) /\
  filter_value "A%42" = "agent_output/run_id%20eq%20'A%42'" /\
  unquote (filter_value "A%42") = filter_expression "AB" /\
  unquote (filter_value "A%42") <> filter_expression "A%42".
Proof. repeat split; try reflexivity. discriminate. Qed.

(** ** Distinct values *)

Lemma first_column_texts (values : list row) :
  Forall (fun value => value <> []) values ->
  exists value_list,
    comprehension first_column_text values = Return value_list /\
    Forall2 (fun value text => exists v rest, value = v :: rest /\ text = py_str v)
      values value_list.
Proof.
  induction 1 as [|value values Hvalue _ (value_list & Hc & Hall)]; simpl.
  - exists []. split; [reflexivity|constructor].
  - destruct value as [|v rest]; [congruence|].
    unfold first_column_text at 1. simpl. rewrite Hc.
    eexists. split; [reflexivity|]. constructor; eauto.
Qed.

(** C10: when the statement of [get_distinct_values] is accepted and the
    fetch yields rows, the tool returns one line per row, in order, each
    the [str] of the first column of its row, joined by newlines; a row
    whose first column is NULL gives the line [None]. *)
Theorem get_distinct_values_lines (E : Env) (table_name column_name : string) (h : history)
    (values : list row) :
  let c := length h in
  connect E h = None ->
  execute E (h ++ [EConnect c; ECursor c]) (distinct_values_sql table_name column_name) []
    = None ->
  fetchall E (h ++ [EConnect c; ECursor c;
                    EExecute c (distinct_values_sql table_name column_name) []])
    = inr values ->
  values <> [] ->
  Forall (fun value => value <> []) values ->
  exists value_list,
    fst (run (get_distinct_values E table_name column_name) h) =
      Return (join nl value_list) /\
    Forall2 (fun value text => exists v rest, value = v :: rest /\ text = py_str v)
      values value_list /\
    (forall i rest, values !! i = Some (VNone :: rest) -> value_list !! i = Some "None").
Proof.
  intros c Hconn Hexec Hfetch Hne Hcols.
  destruct (first_column_texts values Hcols) as (value_list & Hc & Hall).
  exists value_list. split; [|split].
  - unfold run. cbn [fst]. unfold get_distinct_values. enter_handler.
    rewrite Hconn. flatten_history. fold c. rewrite Hexec. flatten_history.
    rewrite Hfetch. destruct values as [|value values]; [congruence|].
    cbn beta iota. rewrite Hc. reflexivity.
  - exact Hall.
  - intros i rest Hi.
    destruct (Forall2_lookup_l _ _ _ _ _ Hall Hi) as (text & Ht & v & rest' & Hv & ->).
    injection Hv as <- _. exact Ht.
Qed.

Lemma get_distinct_values_lines_witness :
  exists value_list,
    fst (run (get_distinct_values Demo.env "Customer" "Title") []) =
      Return (join nl value_list) /\
    Forall2 (fun value text => exists v rest, value = v :: rest /\ text = py_str v)
      [[VStr "Mr."]; [VNone]; [VStr "Ms."]] value_list /\
    (forall i rest, [[VStr "Mr."]; [VNone]; [VStr "Ms."]] !! i = Some (VNone :: rest) ->
                    value_list !! i = Some "None").
Proof.
  apply (get_distinct_values_lines Demo.env "Customer" "Title" []
           [[VStr "Mr."]; [VNone]; [VStr "Ms."]]).
  - reflexivity.
  - reflexivity.
  - reflexivity.
  - discriminate.
  - repeat constructor; discriminate.
Defined.

Example get_distinct_values_null :
  run (get_distinct_values Demo.env "Customer" "Title") [] =
    (Return ("Mr." +:+ nl +:+ "None" +:+ nl +:+ "Ms."),
     [EConnect 0; ECursor 0;
      EExecute 0 "SELECT DISTINCT [Title] FROM [SalesLT].[Customer]" [];
      EFetchAll 0; ECursorClose 0; EClose 0]).
Proof. reflexivity. Qed.

(** ** What the catalog tools return *)

Lemma expect_strs_strs (names : list string) (i : nat) :
  expect_strs i (map VStr names) = Return names.
Proof.
  revert i. induction names as [|n names IH]; intros i; simpl; [reflexivity|].
  now rewrite IH.
Qed.

Lemma join_values_strs (sep : string) (names : list string) :
  join_values sep (map VStr names) = Return (join sep names).
Proof. unfold join_values. now rewrite expect_strs_strs. Qed.

Lemma first_attr_names (attr : string) (names : list string) :
  comprehension (fun r : row => row_attr r 0 attr) (map (fun n => [VStr n]) names)
  = Return (map VStr names).
Proof.
  induction names as [|n names IH]; simpl; [reflexivity|]. now rewrite IH.
Qed.

(** X1: when the catalog query of [list_tables] yields one name per row,
    the tool returns the names joined by newlines, in order, and the fixed
    message when there is no row; the connection is closed before. *)
Theorem list_tables_names (E : Env) (h : history) (names : list string) :
  let c := length h in
  connect E h = None ->
  execute E (h ++ [EConnect c; ECursor c]) list_tables_sql [] = None ->
  fetchall E (h ++ [EConnect c; ECursor c; EExecute c list_tables_sql []])
    = inr (map (fun n => [VStr n]) names) ->
  run (list_tables E) h =
    (Return (match names with
             | [] => "No tables found in the database."
             | _ :: _ => join nl names
             end),
     [EConnect c; ECursor c; EExecute c list_tables_sql []; EFetchAll c;
      ECursorClose c; EClose c]).
Proof.
  intros c Hconn Hexec Hfetch. apply run_app.
  unfold list_tables. enter_handler.
  rewrite Hconn. flatten_history. fold c. rewrite Hexec. flatten_history.
  rewrite Hfetch. flatten_history. rewrite first_attr_names.
  destruct names as [|n names]; [reflexivity|].
  cbn [map]. change (VStr n :: map VStr names) with (map VStr (n :: names)).
  rewrite join_values_strs. reflexivity.
Qed.

Lemma list_tables_names_witness :
  run (list_tables Demo.env) [] =
    (Return ("Customer" +:+ nl +:+ "Product"),
     [EConnect 0; ECursor 0; EExecute 0 list_tables_sql []; EFetchAll 0;
      ECursorClose 0; EClose 0]).
Proof.
  exact (list_tables_names Demo.env [] ["Customer"; "Product"] eq_refl eq_refl eq_refl).
Defined.

(** X2: when the key query of [get_primary_keys] yields one column name
    per row and at least one row, the tool returns the names joined by a
    comma and a space, in fetch order. *)
Theorem get_primary_keys_names (E : Env) (table_name : string) (h : history)
    (names : list string) :
  let c := length h in
  connect E h = None ->
  execute E (h ++ [EConnect c; ECursor c]) (primary_keys_sql table_name) [] = None ->
  fetchall E (h ++ [EConnect c; ECursor c; EExecute c (primary_keys_sql table_name) []])
    = inr (map (fun n => [VStr n]) names) ->
  names <> [] ->
  run (get_primary_keys E table_name) h =
    (Return (join ", " names),
     [EConnect c; ECursor c; EExecute c (primary_keys_sql table_name) []; EFetchAll c;
      ECursorClose c; EClose c]).
Proof.
  intros c Hconn Hexec Hfetch Hne. apply run_app.
  unfold get_primary_keys. enter_handler.
  rewrite Hconn. flatten_history. fold c. rewrite Hexec. flatten_history.
  rewrite Hfetch. flatten_history.
  destruct names as [|n names]; [congruence|].
  cbn [map]. change ([VStr n] :: map (fun n0 => [VStr n0]) names)
    with (map (fun n0 => [VStr n0]) (n :: names)).
  rewrite first_attr_names, join_values_strs. reflexivity.
Qed.

Lemma get_primary_keys_names_witness :
  run (get_primary_keys Demo.env "Customer") [] =
    (Return "CustomerID",
     [EConnect 0; ECursor 0; EExecute 0 (primary_keys_sql "Customer") []; EFetchAll 0;
      ECursorClose 0; EClose 0]).
Proof.
  refine (get_primary_keys_names Demo.env "Customer" [] ["CustomerID"]
            eq_refl eq_refl eq_refl _).
  discriminate.
Defined.

Lemma schema_lines_of (cols : list (value * value)) :
  comprehension schema_line (map (fun p => [p.1; p.2]) cols)
  = Return (map (fun p => py_str p.1 +:+ ": " +:+ py_str p.2) cols).
Proof.
  induction cols as [|p cols IH]; simpl; [reflexivity|]. now rewrite IH.
Qed.

(** X3: when the column query of [get_table_schema] yields at least one
    row of a name and a type, the tool returns one line [name: type] per
    row, in fetch order, joined by newlines. *)
Theorem get_table_schema_lines (E : Env) (table_name : string) (h : history)
    (cols : list (value * value)) :
  let c := length h in
  connect E h = None ->
  execute E (h ++ [EConnect c; ECursor c]) (table_schema_sql table_name) [] = None ->
  fetchall E (h ++ [EConnect c; ECursor c; EExecute c (table_schema_sql table_name) []])
    = inr (map (fun p => [p.1; p.2]) cols) ->
  cols <> [] ->
  run (get_table_schema E table_name) h =
    (Return (join nl (map (fun p => py_str p.1 +:+ ": " +:+ py_str p.2) cols)),
     [EConnect c; ECursor c; EExecute c (table_schema_sql table_name) []; EFetchAll c;
      ECursorClose c; EClose c]).
Proof.
  intros c Hconn Hexec Hfetch Hne. apply run_app.
  unfold get_table_schema. enter_handler.
  rewrite Hconn. flatten_history. fold c. rewrite Hexec. flatten_history.
  rewrite Hfetch. flatten_history.
  destruct cols as [|p cols]; [congruence|].
  cbn [map]. change ([p.1; p.2] :: map (fun p0 : value * value => [p0.1; p0.2]) cols)
    with (map (fun p0 : value * value => [p0.1; p0.2]) (p :: cols)).
  rewrite schema_lines_of. reflexivity.
Qed.

Lemma get_table_schema_lines_witness :
  run (get_table_schema Demo.env "Customer") [] =
    (Return ("CustomerID: int" +:+ nl +:+ "Title: nvarchar"),
     [EConnect 0; ECursor 0; EExecute 0 (table_schema_sql "Customer") []; EFetchAll 0;
      ECursorClose 0; EClose 0]).
Proof.
  refine (get_table_schema_lines Demo.env "Customer" []
            [(VStr "CustomerID", VStr "int"); (VStr "Title", VStr "nvarchar")]
            eq_refl eq_refl eq_refl _).
  discriminate.
Defined.

(** X4: when the count query is accepted and yields a row, the tool
    returns the sentence with the table name as given and the [str] of the
    first column of that row. *)
Theorem get_table_row_count_text (E : Env) (table_name : string) (h : history)
    (total : value) (rest : row) :
  let c := length h in
  connect E h = None ->
  execute E (h ++ [EConnect c; ECursor c]) (row_count_sql table_name) [] = None ->
  fetchone E (h ++ [EConnect c; ECursor c; EExecute c (row_count_sql table_name) []])
    = inr (Some (total :: rest)) ->
  run (get_table_row_count E table_name) h =
    (Return ("Table '" +:+ table_name +:+ "' has " +:+ py_str total +:+ " rows."),
     [EConnect c; ECursor c; EExecute c (row_count_sql table_name) []; EFetchOne c;
      ECursorClose c; EClose c]).
Proof.
  intros c Hconn Hexec Hfetch. apply run_app.
  unfold get_table_row_count. enter_handler.
  rewrite Hconn. flatten_history. fold c. rewrite Hexec. flatten_history.
  rewrite Hfetch. flatten_history. reflexivity.
Qed.

Lemma get_table_row_count_text_witness :
  run (get_table_row_count Demo.env "Customer") [] =
    (Return "Table 'Customer' has 3 rows.",
     [EConnect 0; ECursor 0; EExecute 0 (row_count_sql "Customer") []; EFetchOne 0;
      ECursorClose 0; EClose 0]).
Proof.
  exact (get_table_row_count_text Demo.env "Customer" [] (VInt 3) []
           eq_refl eq_refl eq_refl).
Defined.

(** X5: when the information query yields a row of a name and a version,
    [get_database_info] returns the two labelled lines; when it yields no
    row, the tool closes the connection and then raises [AttributeError]
    on the missing [DatabaseName]. *)
Theorem get_database_info_text (E : Env) (h : history) (info : option row) :
  let c := length h in
  connect E h = None ->
  execute E (h ++ [EConnect c; ECursor c]) database_info_sql [] = None ->
  fetchone E (h ++ [EConnect c; ECursor c; EExecute c database_info_sql []]) = inr info ->
  (forall name version rest, info = Some (name :: version :: rest) ->
     run (get_database_info E) h =
       (Return ("Database Name: " +:+ py_str name +:+ nl +:+ "Version: " +:+ py_str version),
        [EConnect c; ECursor c; EExecute c database_info_sql []; EFetchOne c;
         ECursorClose c; EClose c])) /\
  (info = None ->
     run (get_database_info E) h =
       (Raise (AttributeError "'NoneType' object has no attribute 'DatabaseName'"),
        [EConnect c; ECursor c; EExecute c database_info_sql []; EFetchOne c;
         ECursorClose c; EClose c])).
Proof.
  intros c Hconn Hexec Hfetch.
  split; [intros name version rest ->| intros ->];
    apply run_app; unfold get_database_info; enter_handler;
    rewrite Hconn; flatten_history; fold c; rewrite Hexec; flatten_history;
    rewrite Hfetch; flatten_history; reflexivity.
Qed.

Lemma get_database_info_text_witness :
  run (get_database_info Demo.env) [] =
    (Return ("Database Name: delfos" +:+ nl +:+ "Version: 12.0.2000.8"),
     [EConnect 0; ECursor 0; EExecute 0 database_info_sql []; EFetchOne 0;
      ECursorClose 0; EClose 0]).
Proof.
  exact (proj1 (get_database_info_text Demo.env []
                  (Some [VStr "delfos"; VStr "12.0.2000.8"]) eq_refl eq_refl eq_refl)
           (VStr "delfos") (VStr "12.0.2000.8") [] eq_refl).
Defined.

Lemma relationship_lines_of (rels : list (value * value * value * value * value)) :
  comprehension relationship_line
    (map (fun '(fk, pt, pc, rt, rc) => [fk; pt; pc; rt; rc]) rels)
  = Return (map (fun '(fk, pt, pc, rt, rc) =>
                   "Foreign Key: " +:+ py_str fk +:+ ", " +:+ py_str pt +:+ "(" +:+
                   py_str pc +:+ ") -> " +:+ py_str rt +:+ "(" +:+ py_str rc +:+ ")") rels).
Proof.
  induction rels as [|[[[[fk pt] pc] rt] rc] rels IH]; simpl; [reflexivity|].
  now rewrite IH.
Qed.

(** X6: [get_table_relationships] returns the fixed message when the
    foreign-key query yields no row, and otherwise one line
    [Foreign Key: K, P(pc) -> R(rc)] per row, in fetch order, joined by
    newlines. *)
Theorem get_table_relationships_lines (E : Env) (h : history)
    (rels : list (value * value * value * value * value)) :
  let c := length h in
  connect E h = None ->
  execute E (h ++ [EConnect c; ECursor c]) relationships_sql [] = None ->
  fetchall E (h ++ [EConnect c; ECursor c; EExecute c relationships_sql []])
    = inr (map (fun '(fk, pt, pc, rt, rc) => [fk; pt; pc; rt; rc]) rels) ->
  run (get_table_relationships E) h =
    (Return (match rels with
             | [] => "No foreign key relationships found in the database."
             | _ :: _ =>
                 join nl (map (fun '(fk, pt, pc, rt, rc) =>
                                 "Foreign Key: " +:+ py_str fk +:+ ", " +:+ py_str pt +:+
                                 "(" +:+ py_str pc +:+ ") -> " +:+ py_str rt +:+
                                 "(" +:+ py_str rc +:+ ")") rels)
             end),
     [EConnect c; ECursor c; EExecute c relationships_sql []; EFetchAll c;
      ECursorClose c; EClose c]).
Proof.
  intros c Hconn Hexec Hfetch. apply run_app.
  unfold get_table_relationships. enter_handler.
  rewrite Hconn. flatten_history. fold c. rewrite Hexec. flatten_history.
  rewrite Hfetch. flatten_history.
  destruct rels as [|rel rels]; [reflexivity|].
  pose proof (relationship_lines_of (rel :: rels)) as Hlines.
  destruct rel as [[[[fk pt] pc] rt] rc]. cbn [map] in Hlines |- *.
  rewrite Hlines. reflexivity.
Qed.

Lemma get_table_relationships_lines_witness :
  run (get_table_relationships Demo.env) [] =
    (Return "No foreign key relationships found in the database.",
     [EConnect 0; ECursor 0; EExecute 0 relationships_sql []; EFetchAll 0;
      ECursorClose 0; EClose 0]).
Proof.
  exact (get_table_relationships_lines Demo.env [] [] eq_refl eq_refl eq_refl).
Defined.

Lemma expect_strs_not_str (items : list value) :
  forall i, Exists (fun v => forall s, v <> VStr s) items ->
            exists msg, expect_strs i items = Raise (TypeError msg).
Proof.
  induction items as [|v items IH]; intros i Hex; [inversion Hex|].
  simpl. destruct v as [|n|s|o r]; try (eexists; reflexivity).
  inversion Hex as [? ? Hv|? ? Hrest]; subst; [now destruct (Hv s)|].
  destruct (IH (S i) Hrest) as [msg ->]. eauto.
Qed.

(** X7: when a row of the key query has a column name that is not a
    string (a NULL, say), [get_primary_keys] closes the connection and then
    raises [TypeError] from the join. *)
Theorem get_primary_keys_not_str (E : Env) (table_name : string) (h : history)
    (keys : list value) :
  let c := length h in
  connect E h = None ->
  execute E (h ++ [EConnect c; ECursor c]) (primary_keys_sql table_name) [] = None ->
  fetchall E (h ++ [EConnect c; ECursor c; EExecute c (primary_keys_sql table_name) []])
    = inr (map (fun v => [v]) keys) ->
  Exists (fun v => forall s, v <> VStr s) keys ->
  exists msg,
    run (get_primary_keys E table_name) h =
      (Raise (TypeError msg),
       [EConnect c; ECursor c; EExecute c (primary_keys_sql table_name) []; EFetchAll c;
        ECursorClose c; EClose c]).
Proof.
  intros c Hconn Hexec Hfetch Hex.
  assert (Hcomp : comprehension (fun key : row => row_attr key 0 "COLUMN_NAME")
                    (map (fun v => [v]) keys) = Return keys).
  { clear. induction keys as [|v keys IH]; simpl; [reflexivity|]. now rewrite IH. }
  destruct (expect_strs_not_str keys 0 Hex) as [msg Hmsg].
  exists msg. apply run_app.
  unfold get_primary_keys. enter_handler.
  rewrite Hconn. flatten_history. fold c. rewrite Hexec. flatten_history.
  rewrite Hfetch. flatten_history.
  destruct keys as [|v keys]; [inversion Hex|].
  cbn [map]. change ([v] :: map (fun v0 => [v0]) keys) with (map (fun v0 => [v0]) (v :: keys)).
  rewrite Hcomp. unfold join_values. rewrite Hmsg. reflexivity.
Qed.

Lemma get_primary_keys_not_str_witness :
  exists msg,
    run (get_primary_keys null_key_env "Customer") [] =
      (Raise (TypeError msg),
       [EConnect 0; ECursor 0; EExecute 0 (primary_keys_sql "Customer") []; EFetchAll 0;
        ECursorClose 0; EClose 0]).
Proof.
  refine (get_primary_keys_not_str null_key_env "Customer" [] [VStr "CustomerID"; VNone]
            eq_refl eq_refl eq_refl _).
  apply Exists_cons_tl, Exists_cons_hd. discriminate.
Defined.

(** ** The batch insert when a row is refused *)

Lemma insert_rows_refused (E : Env) (cursor : nat) (run_id user_id question : string)
    (metric_name visual_hint : string) (created_at : value)
    (row : gmap string value) (post : list (gmap string value)) (e : db_error)
    (pre : list (gmap string value)) :
  let ev := fun r => EExecute cursor insert_sql
              (insert_params run_id user_id question r metric_name visual_hint created_at) in
  forall (n : nat) (h : history),
    (forall i r, pre !! i = Some r ->
       execute E (h ++ map ev (take i pre)) insert_sql
         (insert_params run_id user_id question r metric_name visual_hint created_at)
       = None) ->
    execute E (h ++ map ev pre) insert_sql
      (insert_params run_id user_id question row metric_name visual_hint created_at)
      = Some e ->
    insert_rows E cursor run_id user_id question metric_name visual_hint created_at
      (pre ++ row :: post) n h
    = (Raise (DbError e), h ++ map ev pre ++ [ev row]).
Proof.
  intros ev. induction pre as [|r0 pre IH]; intros n h Hpre Hrow.
  - simpl in *. rewrite app_nil_r in Hrow.
    unfold bind, cursor_execute. now rewrite Hrow.
  - cbn [app insert_rows]. unfold bind at 1. unfold cursor_execute.
    pose proof (Hpre 0 r0 eq_refl) as H0. simpl in H0. rewrite app_nil_r in H0.
    rewrite H0. cbn beta iota. fold (ev r0).
    rewrite (IH (S n) (h ++ [ev r0])).
    + cbn [map]. rewrite <- app_assoc. reflexivity.
    + intros i r Hi. rewrite <- app_assoc. exact (Hpre (S i) r Hi).
    + rewrite <- app_assoc. exact Hrow.
Qed.

(** X8: when the driver accepts the inserts of the first rows of a batch
    and refuses the next one, [insert_agent_output_batch] ends with that
    error right after the refused insert: the accepted inserts have been
    issued, no commit is issued, the cursor and the connection are not
    closed, and the rows after the refused one are not attempted. *)
Theorem insert_batch_refused_row (E : Env) (user_id question : string)
    (pre : list (gmap string value)) (row : gmap string value)
    (post : list (gmap string value)) (metric_name visual_hint : string)
    (h : history) (e : db_error) :
  let c := length h in
  let run_id := uuid4 E (h ++ [EConnect c; ECursor c]) in
  let created_at := now E (h ++ [EConnect c; ECursor c; EUuid4 run_id]) in
  let ev := fun r => EExecute c insert_sql
              (insert_params run_id user_id question r metric_name visual_hint created_at) in
  let h0 := h ++ [EConnect c; ECursor c; EUuid4 run_id; ENow created_at] in
  connect E h = None ->
  (forall i r, pre !! i = Some r ->
     execute E (h0 ++ map ev (take i pre)) insert_sql
       (insert_params run_id user_id question r metric_name visual_hint created_at) = None) ->
  execute E (h0 ++ map ev pre) insert_sql
    (insert_params run_id user_id question row metric_name visual_hint created_at) = Some e ->
  run (insert_agent_output_batch E user_id question (pre ++ row :: post)
         metric_name visual_hint) h =
    (Raise (DbError e),
     [EConnect c; ECursor c; EUuid4 run_id; ENow created_at] ++ map ev pre ++ [ev row]) /\
  commits (snd (run (insert_agent_output_batch E user_id question (pre ++ row :: post)
                       metric_name visual_hint) h)) = 0.
Proof.
  intros c run_id created_at ev h0 Hconn Hpre Hrow.
  assert (Hrun : run (insert_agent_output_batch E user_id question (pre ++ row :: post)
                        metric_name visual_hint) h =
                 (Raise (DbError e),
                  [EConnect c; ECursor c; EUuid4 run_id; ENow created_at] ++
                  map ev pre ++ [ev row])).
  { apply run_app. unfold insert_agent_output_batch. enter_handler.
    rewrite Hconn. flatten_history. fold c. fold run_id. fold created_at. fold h0.
    rewrite (insert_rows_refused E c run_id user_id question metric_name visual_hint
               created_at row post e pre 0 h0 Hpre Hrow).
    unfold h0. rewrite <- app_assoc. reflexivity. }
  split; [exact Hrun|]. rewrite Hrun. cbn [snd app commits].
  clear. induction pre as [|r pre IH]; [reflexivity|]. exact IH.
Qed.

Lemma insert_batch_refused_row_witness :
  run (insert_agent_output_batch strict_env "ana@example.com" "Sales by country"
         ([ {[ "x_value" := VStr "Canada" ]} ] ++
          {[ "y_value" := VInt 7 ]} :: [ {[ "x_value" := VStr "Chile" ]} ])
         "sales" "pie") [] =
    (Raise (DbError not_null_violation),
     [EConnect 0; ECursor 0;
      EUuid4 "6f1c2b9e-3a4d-4e5f-8a7b-0c1d2e3f4a5b";
      ENow (VObj "2025-03-01 12:00:00" "datetime.datetime(2025, 3, 1, 12, 0)");
      EExecute 0 insert_sql
        [VStr "6f1c2b9e-3a4d-4e5f-8a7b-0c1d2e3f4a5b"; VStr "ana@example.com";
         VStr "Sales by country"; VStr "Canada"; VNone; VNone; VNone;
         VStr "sales"; VStr "pie";
         VObj "2025-03-01 12:00:00" "datetime.datetime(2025, 3, 1, 12, 0)"];
      EExecute 0 insert_sql
        [VStr "6f1c2b9e-3a4d-4e5f-8a7b-0c1d2e3f4a5b"; VStr "ana@example.com";
         VStr "Sales by country"; VNone; VInt 7; VNone; VNone;
         VStr "sales"; VStr "pie";
         VObj "2025-03-01 12:00:00" "datetime.datetime(2025, 3, 1, 12, 0)"]]).
Proof.
  refine (proj1 (insert_batch_refused_row strict_env "ana@example.com" "Sales by country"
                   [ {[ "x_value" := VStr "Canada" ]} ] {[ "y_value" := VInt 7 ]}
                   [ {[ "x_value" := VStr "Chile" ]} ] "sales" "pie" []
                   not_null_violation eq_refl _ eq_refl)).
  intros [|i] r Hr; [injection Hr as <-; reflexivity | discriminate Hr].
Defined.

(** ** What the tools never do *)

Lemma insert_rows_statements (E : Env) (cursor : nat) (run_id user_id question : string)
    (metric_name visual_hint : string) (created_at : value)
    (results : list (gmap string value)) :
  forall (n : nat) (h : history),
  exists evs,
    snd (insert_rows E cursor run_id user_id question metric_name visual_hint created_at
           results n h) = h ++ evs /\
    Forall (fun stmt => stmt = insert_sql) (statements evs) /\
    length (statements evs) <= length results /\
    commits evs = 0.
Proof.
  induction results as [|row rest IH]; intros n h; simpl.
  - exists []. rewrite app_nil_r. repeat split; auto.
  - unfold bind at 1. unfold cursor_execute.
    destruct (execute E h insert_sql _) as [e|].
    + eexists. split; [reflexivity|]. simpl. repeat split; [auto | lia].
    + destruct (IH (S n) (h ++ [EExecute cursor insert_sql
          (insert_params run_id user_id question row metric_name visual_hint created_at)]))
        as (evs & -> & Hall & Hlen & Hcom).
      eexists. rewrite <- app_assoc. split; [reflexivity|].
      simpl. repeat split; [auto | lia | exact Hcom].
Qed.

Lemma statements_app (evs1 evs2 : list event) :
  statements (evs1 ++ evs2) = statements evs1 ++ statements evs2.
Proof.
  induction evs1 as [|e evs1 IH]; simpl; [reflexivity|].
  destruct e; simpl; rewrite ?IH; reflexivity.
Qed.

Lemma commits_app (evs1 evs2 : list event) :
  commits (evs1 ++ evs2) = commits evs1 + commits evs2.
Proof.
  induction evs1 as [|e evs1 IH]; simpl; [reflexivity|].
  destruct e; simpl; rewrite ?IH; reflexivity.
Qed.

(** X9: whatever the user, the question, the rows, the metric and the
    visual hint are, and whatever the driver answers, every statement that
    [insert_agent_output_batch] issues is the fixed insert text (the data
    of the caller travels as parameters only), there are at most as many
    as rows, and at most one commit is issued. *)
Theorem insert_batch_fixed_statement (E : Env) (user_id question : string)
    (results : list (gmap string value)) (metric_name visual_hint : string) (h : history) :
  let evs := snd (run (insert_agent_output_batch E user_id question results
                         metric_name visual_hint) h) in
  Forall (fun stmt => stmt = insert_sql) (statements evs) /\
  length (statements evs) <= length results /\
  commits evs <= 1.
Proof.
  unfold run. cbn [snd]. unfold insert_agent_output_batch. enter_handler.
  destruct (connect E h).
  { cbn [snd]. rewrite drop_all. simpl. repeat split; [constructor | lia | lia]. }
  cbn beta iota.
  match goal with
  | |- context [insert_rows E ?c ?rid ?u ?q ?m ?v ?ts ?rs ?n ?h0] =>
      destruct (insert_rows_statements E c rid u q m v ts rs n h0)
        as (evs & Hsnd & Hall & Hlen & Hcom);
      destruct (insert_rows E c rid u q m v ts rs n h0) as [r h']
  end.
  cbn [snd] in Hsnd. subst h'.
  destruct r as [k|e]; cbn beta iota.
  - driver_cases E; cbn [snd]; flatten_history; rewrite drop_app_length;
      cbn [statements commits]; rewrite statements_app, commits_app, Hcom;
      cbn [statements commits]; rewrite app_nil_r; repeat split; auto; lia.
  - cbn [snd]. flatten_history. rewrite drop_app_length.
    cbn [statements commits]. rewrite Hcom. repeat split; auto.
Qed.

Ltac no_commit E h :=
  enter_handler;
  destruct (connect E h);
  [ cbn [snd]; rewrite drop_all; reflexivity
  | cbn beta iota; driver_cases E; format_cases; cbn [snd]; flatten_history;
    rewrite drop_app_length; reflexivity ].

(** X10: no tool other than the batch insert ever issues a commit,
    whatever its arguments and whatever the driver answers; in particular
    [execute_sql_query] does not commit the statement it is given. *)
Theorem read_tools_never_commit (E : Env) (call : tool_call) (h : history) :
  is_batch_insert call = false ->
  commits (snd (run (invoke E call) h)) = 0.
Proof.
  intros Hcall. unfold run. cbn [snd].
  destruct call; simpl in Hcall |- *; try discriminate.
  - unfold execute_sql_query. no_commit E h.
  - unfold get_table_schema. no_commit E h.
  - unfold list_tables. no_commit E h.
  - unfold get_database_info. no_commit E h.
  - unfold get_table_row_count. no_commit E h.
  - unfold get_primary_keys. no_commit E h.
  - unfold get_distinct_values. no_commit E h.
  - unfold get_table_relationships. no_commit E h.
  - unfold generate_powerbi_url. enter_handler. cbn [snd]. rewrite drop_all. reflexivity.
Qed.

Lemma read_tools_never_commit_witness :
  commits (snd (run (invoke Demo.env
                       (CallExecuteSqlQuery "SELECT CustomerID, Title FROM SalesLT.Customer"))
                  [])) = 0.
Proof.
  exact (read_tools_never_commit Demo.env
           (CallExecuteSqlQuery "SELECT CustomerID, Title FROM SalesLT.Customer") []
           eq_refl).
Defined.

(** ** The report URL identifies the run *)

Lemma append_quote_inj (s1 s2 : string) : s1 +:+ "'" = s2 +:+ "'" -> s1 = s2.
Proof.
  revert s2. induction s1 as [|a s1 IH]; intros [|b s2]; rewrite ?append_cons.
  - reflexivity.
  - intros [= -> H]. destruct s2; discriminate H.
  - intros [= -> H]. destruct s1; discriminate H.
  - intros [= -> H]. f_equal. auto.
Qed.

(** X11: with the same visual hint and the same environment, two run
    identifiers that give the same URL are the same identifier. *)
Theorem generate_powerbi_url_injective (E : Env) (visual_hint run_id1 run_id2 : string)
    (h1 h2 : history) :
  fst (run (generate_powerbi_url E run_id1 visual_hint) h1) =
  fst (run (generate_powerbi_url E run_id2 visual_hint) h2) ->
  run_id1 = run_id2.
Proof.
  rewrite !generate_powerbi_url_run. cbn [fst]. intros [= H].
  do 7 apply append_inj_l in H.
  unfold filter_value in H. apply append_inj_l in H.
  now apply append_quote_inj.
Qed.

Lemma generate_powerbi_url_injective_witness :
  "6f1c2b9e" = "6f1c2b9e".
Proof.
  exact (generate_powerbi_url_injective Demo.env "pie" "6f1c2b9e" "6f1c2b9e"
           [] [EConnect 0; EClose 0] eq_refl).
Defined.

(** ** Texts that are never empty *)

Lemma comprehension_cons {A B : Type} (f : A -> result B) (a : A) (l : list A) (bs : list B) :
  comprehension f (a :: l) = Return bs ->
  exists b bs', bs = b :: bs' /\ f a = Return b.
Proof.
  simpl. destruct (f a) as [b|]; [|discriminate].
  destruct (comprehension f l) as [bs'|]; [|discriminate].
  intros [= <-]. eauto.
Qed.

Lemma append_nonempty_r (s t : string) : t <> "" -> s +:+ t <> "".
Proof.
  intros Ht. destruct s as [|a s]; [exact Ht|]. rewrite append_cons. discriminate.
Qed.

Lemma schema_line_nonempty (col : row) (line : string) :
  schema_line col = Return line -> line <> "".
Proof.
  unfold schema_line.
  destruct (row_attr col 0 _); [|discriminate].
  destruct (row_attr col 1 _); [|discriminate].
  intros [= <-]. apply append_nonempty_r. discriminate.
Qed.

Lemma relationship_line_nonempty (rel : row) (line : string) :
  relationship_line rel = Return line -> line <> "".
Proof.
  unfold relationship_line.
  repeat match goal with
         | |- context [row_attr ?r ?i ?n] => destruct (row_attr r i n); [|discriminate]
         end.
  intros [= <-]. discriminate.
Qed.

Ltac never_blank E h :=
  enter_handler;
  destruct (connect E h); [discriminate|];
  cbn beta iota; driver_cases E; try discriminate.

(** X12: whatever the driver answers, a text returned by
    [execute_sql_query], [get_table_schema], [get_database_info],
    [get_table_row_count], [get_table_relationships],
    [insert_agent_output_batch] or [generate_powerbi_url] is never the
    empty string. *)
Theorem returned_text_nonempty (E : Env) (call : tool_call) (h : history) (s : string) :
  has_fixed_text call = true ->
  fst (run (invoke E call) h) = Return s ->
  s <> "".
Proof.
  intros Hcall. unfold run. cbn [fst].
  destruct call; simpl in Hcall |- *; try discriminate.
  - unfold execute_sql_query. never_blank E h.
    destruct (join nl (map (str_row E) l)); cbn [fst]; intros [= <-]; discriminate.
  - unfold get_table_schema. never_blank E h.
    destruct l as [|col cols]; cbn beta iota.
    + cbn [fst]. intros [= <-]. discriminate.
    + destruct (comprehension schema_line (col :: cols)) as [lines|] eqn:Hc;
        cbn beta iota; cbn [fst]; [|discriminate].
      intros [= <-].
      apply comprehension_cons in Hc as (line & lines' & -> & Hline).
      apply join_nonempty. eapply schema_line_nonempty, Hline.
  - unfold get_database_info. never_blank E h.
    format_cases; cbn [fst]; try discriminate. intros [= <-]. discriminate.
  - unfold get_table_row_count. never_blank E h.
    format_cases; cbn [fst]; try discriminate. intros [= <-]. discriminate.
  - unfold get_table_relationships. never_blank E h.
    destruct l as [|rel rels]; cbn beta iota.
    + cbn [fst]. intros [= <-]. discriminate.
    + destruct (comprehension relationship_line (rel :: rels)) as [lines|] eqn:Hc;
        cbn beta iota; cbn [fst]; [|discriminate].
      intros [= <-].
      apply comprehension_cons in Hc as (line & lines' & -> & Hline).
      apply join_nonempty. eapply relationship_line_nonempty, Hline.
  - unfold insert_agent_output_batch. enter_handler.
    destruct (connect E h); [discriminate|]. cbn beta iota.
    match goal with
    | |- context [insert_rows E ?c ?rid ?u ?q ?m ?v ?ts ?rs ?n ?h0] =>
        destruct (insert_rows E c rid u q m v ts rs n h0) as [[k|e] h']
    end; cbn beta iota; [|discriminate].
    destruct (commit E h'); cbn [fst]; [discriminate|]. intros [= <-]. discriminate.
  - unfold generate_powerbi_url. enter_handler. cbn [fst]. intros [= <-]. discriminate.
Qed.

Lemma returned_text_nonempty_witness :
  "Table 'Customer' has 3 rows." <> "".
Proof.
  exact (returned_text_nonempty Demo.env (CallGetTableRowCount "Customer") []
           "Table 'Customer' has 3 rows." eq_refl eq_refl).
Defined.

(** ** Invocations served one after the other *)

Ltac closes_other :=
  let c := fresh "c" in
  let Hc := fresh "Hc" in
  intros c Hc; cbn [closes]; apply Nat.eqb_neq in Hc; rewrite ?Hc; reflexivity.

Ltac opened_own :=
  let c := fresh "c" in
  cbn [opened]; intros c [<-|[]]; reflexivity.

Ltac prove_own E h :=
  intros h; enter_handler;
  destruct (connect E h);
  [ exists []; rewrite app_nil_r; split; [reflexivity|];
    split; [reflexivity | split; [intros ? [] | discriminate]]
  | cbn beta iota; driver_cases E; format_cases; cbn [fst snd]; flatten_history;
    (eexists; split; [reflexivity|]);
    (split; [closes_other | split; [opened_own|]]);
    cbn [returned opened closes]; rewrite ?Nat.eqb_refl;
    first [discriminate | intros _; split; reflexivity] ].

Lemma execute_sql_query_own (E : Env) (query : string) :
  own_connection E (CallExecuteSqlQuery query) (execute_sql_query E query).
Proof. unfold execute_sql_query. prove_own E h. Qed.

Lemma get_table_schema_own (E : Env) (table_name : string) :
  own_connection E (CallGetTableSchema table_name) (get_table_schema E table_name).
Proof. unfold get_table_schema. prove_own E h. Qed.

Lemma list_tables_own (E : Env) : own_connection E CallListTables (list_tables E).
Proof. unfold list_tables. prove_own E h. Qed.

Lemma get_database_info_own (E : Env) :
  own_connection E CallGetDatabaseInfo (get_database_info E).
Proof. unfold get_database_info. prove_own E h. Qed.

Lemma get_table_row_count_own (E : Env) (table_name : string) :
  own_connection E (CallGetTableRowCount table_name) (get_table_row_count E table_name).
Proof. unfold get_table_row_count. prove_own E h. Qed.

Lemma get_primary_keys_own (E : Env) (table_name : string) :
  own_connection E (CallGetPrimaryKeys table_name) (get_primary_keys E table_name).
Proof. unfold get_primary_keys. prove_own E h. Qed.

Lemma get_distinct_values_own (E : Env) (table_name column_name : string) :
  own_connection E (CallGetDistinctValues table_name column_name)
    (get_distinct_values E table_name column_name).
Proof. unfold get_distinct_values. prove_own E h. Qed.

Lemma get_table_relationships_own (E : Env) :
  own_connection E CallGetTableRelationships (get_table_relationships E).
Proof. unfold get_table_relationships. prove_own E h. Qed.

Lemma insert_agent_output_batch_own (E : Env) (user_id question : string)
    (results : list (gmap string value)) (metric_name visual_hint : string) :
  own_connection E
    (CallInsertAgentOutputBatch user_id question results metric_name visual_hint)
    (insert_agent_output_batch E user_id question results metric_name visual_hint).
Proof.
  intros h. unfold insert_agent_output_batch. enter_handler.
  destruct (connect E h).
  { exists []. rewrite app_nil_r. split; [reflexivity|].
    split; [reflexivity | split; [intros ? [] | discriminate]]. }
  cbn beta iota.
  match goal with
  | |- context [insert_rows E ?c ?rid ?u ?q ?m ?v ?ts ?rs ?n ?h0] =>
      pose proof (insert_rows_events E c rid u q m v ts rs n h0) as Hloop;
      destruct (insert_rows E c rid u q m v ts rs n h0) as [r h']
  end.
  destruct Hloop as (evs & -> & Hopened & Hcloses & Hr).
  destruct r as [n|e]; cbn beta iota.
  - driver_cases E; cbn [fst snd]; flatten_history;
      (eexists; split; [reflexivity|]);
      cbn [opened closes returned];
      rewrite ?opened_app, Hopened; cbn [opened app];
      (split; [intros c Hc; rewrite closes_app, Hcloses; cbn [closes];
               apply Nat.eqb_neq in Hc; rewrite ?Hc; reflexivity |]);
      (split; [intros c [<-|[]]; reflexivity |]);
      first [discriminate
            | intros _; split; [reflexivity|];
              rewrite closes_app, Hcloses; cbn [closes]; rewrite Nat.eqb_refl;
              reflexivity ].
  - cbn [fst snd]. flatten_history. eexists. split; [reflexivity|].
    cbn [opened closes returned]. rewrite Hopened.
    split; [intros c Hc; apply Hcloses |].
    split; [intros c [<-|[]]; reflexivity | discriminate].
Qed.

Lemma generate_powerbi_url_own (E : Env) (run_id visual_hint : string) :
  own_connection E (CallGeneratePowerbiUrl run_id visual_hint)
    (generate_powerbi_url E run_id visual_hint).
Proof.
  intros h. unfold generate_powerbi_url. enter_handler. cbn [fst snd].
  exists []. rewrite app_nil_r. split; [reflexivity|].
  split; [reflexivity | split; [intros ? [] | intros _; split; reflexivity]].
Qed.

Lemma invoke_own (E : Env) (call : tool_call) : own_connection E call (invoke E call).
Proof.
  destruct call; simpl.
  - apply execute_sql_query_own.
  - apply get_table_schema_own.
  - apply list_tables_own.
  - apply get_database_info_own.
  - apply get_table_row_count_own.
  - apply get_primary_keys_own.
  - apply get_distinct_values_own.
  - apply get_table_relationships_own.
  - apply insert_agent_output_batch_own.
  - apply generate_powerbi_url_own.
Qed.

Lemma invoke_all_connections (E : Env) (calls : list tool_call) :
  forall h, exists evs,
    snd (invoke_all E calls h) = h ++ evs /\
    (forall c, c < length h -> closes c evs = 0) /\
    (forall c, In c (opened evs) -> length h <= c) /\
    (Forall (fun r => returned r = true) (fst (invoke_all E calls h)) ->
     length (opened evs) = length (List.filter opens_connection calls) /\
     forall c, In c (opened evs) -> closes c evs = 1).
Proof.
  induction calls as [|call calls IH]; intros h.
  - exists []. simpl. rewrite app_nil_r. repeat split; auto; intros ? [].
  - cbn [invoke_all].
    destruct (invoke_own E call h) as (evs1 & H1 & Hother1 & Hown1 & Hret1).
    destruct (invoke E call h) as [r h1]. cbn [fst snd] in *. subst h1.
    destruct (IH (h ++ evs1)) as (evs2 & H2 & Hbelow2 & Habove2 & Hret2).
    destruct (invoke_all E calls (h ++ evs1)) as [rs h2]. cbn [fst snd] in *. subst h2.
    exists (evs1 ++ evs2). rewrite app_assoc. split; [reflexivity|].
    rewrite length_app in Hbelow2, Habove2.
    split; [|split].
    + intros c Hc. rewrite closes_app, Hother1, Hbelow2; lia.
    + intros c Hin. rewrite opened_app in Hin. apply in_app_or in Hin as [Hin|Hin].
      * apply Hown1 in Hin. lia.
      * apply Habove2 in Hin. lia.
    + intros Hall. apply Forall_cons in Hall as [Hr Hrs].
      destruct (Hret1 Hr) as [Hopened1 Hcloses1].
      destruct (Hret2 Hrs) as [Hlen2 Hcloses2].
      split.
      * rewrite opened_app, length_app, Hlen2, Hopened1. cbn [List.filter].
        destruct (opens_connection call); reflexivity.
      * intros c Hin. rewrite closes_app.
        rewrite opened_app in Hin. apply in_app_or in Hin as [Hin|Hin].
        -- pose proof (Hown1 c Hin) as ->.
           assert (Hne : evs1 <> []) by (intros ->; destruct Hin).
           rewrite Hbelow2 by (destruct evs1; [congruence | simpl; lia]).
           rewrite Hcloses1. destruct (opened evs1) as [|c1 [|c2 l]]; simpl in *.
           ++ destruct Hin.
           ++ reflexivity.
           ++ destruct (opens_connection call); discriminate.
        -- rewrite (Hcloses2 c Hin).
           destruct (decide (c = length h)) as [->|Hc]; [|rewrite Hother1; auto].
           apply Habove2 in Hin.
           assert (evs1 = []) as -> by (destruct evs1; [reflexivity | simpl in Hin; lia]).
           reflexivity.
Qed.

(** X13: when tools are invoked one after the other and every invocation
    returns, the invocations opened one connection per tool that uses the
    database, and each of those connections has been closed exactly once
    by the end. *)
Theorem sequence_leaves_no_connection (E : Env) (calls : list tool_call) (h : history) :
  Forall (fun r => returned r = true) (fst (invoke_all E calls h)) ->
  let evs := drop (length h) (snd (invoke_all E calls h)) in
  length (opened evs) = length (List.filter opens_connection calls) /\
  forall c, In c (opened evs) -> closes c evs = 1.
Proof.
  intros Hall.
  destruct (invoke_all_connections E calls h) as (evs & Hsnd & _ & _ & Hret).
  cbn zeta. rewrite Hsnd, drop_app_length. exact (Hret Hall).
Qed.

Lemma sequence_leaves_no_connection_witness :
  let evs := drop 0 (snd (invoke_all Demo.env
                            [CallListTables; CallGeneratePowerbiUrl "6f1c2b9e" "pie";
                             CallGetTableRowCount "Customer"] [])) in
  length (opened evs) = 2 /\ forall c, In c (opened evs) -> closes c evs = 1.
Proof.
  refine (sequence_leaves_no_connection Demo.env
            [CallListTables; CallGeneratePowerbiUrl "6f1c2b9e" "pie";
             CallGetTableRowCount "Customer"] [] _).
  repeat constructor.
Defined.

(** ** Fetches that find nothing *)

(** X14: when the count query is accepted but the fetch yields no row,
    [get_table_row_count] closes the connection and then raises
    [AttributeError] on the missing [TotalRows]. *)
Theorem get_table_row_count_no_row (E : Env) (table_name : string) (h : history) :
  let c := length h in
  connect E h = None ->
  execute E (h ++ [EConnect c; ECursor c]) (row_count_sql table_name) [] = None ->
  fetchone E (h ++ [EConnect c; ECursor c; EExecute c (row_count_sql table_name) []])
    = inr None ->
  run (get_table_row_count E table_name) h =
    (Raise (AttributeError "'NoneType' object has no attribute 'TotalRows'"),
     [EConnect c; ECursor c; EExecute c (row_count_sql table_name) []; EFetchOne c;
      ECursorClose c; EClose c]).
Proof.
  intros c Hconn Hexec Hfetch. apply run_app.
  unfold get_table_row_count. enter_handler.
  rewrite Hconn. flatten_history. fold c. rewrite Hexec. flatten_history.
  rewrite Hfetch. flatten_history. reflexivity.
Qed.

Lemma get_table_row_count_no_row_witness :
  run (get_table_row_count empty_env "Customer") [] =
    (Raise (AttributeError "'NoneType' object has no attribute 'TotalRows'"),
     [EConnect 0; ECursor 0; EExecute 0 (row_count_sql "Customer") []; EFetchOne 0;
      ECursorClose 0; EClose 0]).
Proof.
  exact (get_table_row_count_no_row empty_env "Customer" [] eq_refl eq_refl eq_refl).
Defined.

Lemma get_table_row_count_returns_witness :
  exists total, "Table 'Customer' has 3 rows." =
                "Table '" +:+ "Customer" +:+ "' has " +:+ py_str total +:+ " rows.".
Proof.
  exact (get_table_row_count_returns Demo.env "Customer" []
           "Table 'Customer' has 3 rows." eq_refl).
Defined.

Lemma get_distinct_values_empty_witness :
  fst (run (get_distinct_values empty_env "Customer" "Title") []) =
    Return "No distinct values found in column 'Title' of table 'Customer'.".
Proof.
  exact (get_distinct_values_empty empty_env "Customer" "Title" [] eq_refl eq_refl eq_refl).
Defined.
